(** * Part pricing subsystem (api/purchases)

    A shallow embedding of the Part / PriceHistory models, the write
    serializers and the detail view of [api/purchases], followed by the
    properties of the overlap check, the current-price queries, the save
    hook and the deletion rules.

    Conventions
    - a [datetime.date] is its proleptic ordinal, an integer; today's date
      ([timezone.now().date()]) is an explicit parameter [today];
    - a table is the list of its rows; a queryset is a list of rows;
    - a nullable attribute is an [option]; a Python exception is the left
      summand of [result];
    - what the framework does around the app's code ([Model.save],
      [ModelSerializer.update], [get_object], [is_valid]) is written as its
      effect on a table. *)

From Stdlib Require Import ZArith List Bool Lia Permutation Sorted String.
From Stdlib Require Import Ascii DecimalString.
Import ListNotations.
Open Scope Z_scope.

(** ** Dates and exceptions *)

Definition date := Z.

(** The payload of the [ValidationError]s raised by the purchases app. *)
Inductive detail : Type :=
| EndDateBeforeStart
    (* {'end_date': '終了日は開始日以降の日付を指定してください。'} *)
| PeriodOverlaps (start_date end_date : option date)
    (* "価格適用期間が既存の価格履歴（start〜end or '無期限'）と重複しています。" *)
| DuplicatePartNumber
    (* "この製品と仕入先の組み合わせで、同じ品番が既に登録されています。" *)
| PriceBelowZero
    (* "価格は0以上である必要があります" *)
| MinimumOrderQuantityBelowOne
    (* "最小発注数量は1以上である必要があります" *)
| FieldRequired
    (* a field declared required is missing from the request *).

Inductive exn : Type :=
| ValidationError (d : detail)
| TypeError        (* an ordering comparison between a date and None *)
| UniqueTogetherError
    (* Meta.unique_together would break: the refusal of the unique index
       (IntegrityError), which the serializer's generated unique-together
       validator reports for the same rows *)
| Http404          (* get_object found no row *).

Definition result (A : Type) : Type := (exn + A)%type.

Definition ret {A : Type} (a : A) : result A := inr a.
Definition raise {A : Type} (e : exn) : result A := inl e.
Definition bind {A B : Type} (m : result A) (k : A -> result B) : result B :=
  match m with
  | inl e => inl e
  | inr a => k a
  end.

Declare Scope py_scope.
Delimit Scope py_scope with py.
Notation "x <- m ;; k" := (bind m (fun x => k))
  (at level 100, m at next level, right associativity) : py_scope.
Notation "m ;;; k" := (bind m (fun _ => k))
  (at level 100, right associativity) : py_scope.
Open Scope py_scope.

(** Ordering comparisons of two attributes that may hold [None]: Python
    raises [TypeError] when either operand is [None]. *)
Definition date_cmp (op : Z -> Z -> bool) (a b : option date) : result bool :=
  match a, b with
  | Some x, Some y => ret (op x y)
  | _, _ => raise TypeError
  end.

Definition date_le := date_cmp Z.leb.
Definition date_ge := date_cmp Z.geb.

(** ** Querysets *)

Section Queryset.
Context {A : Type}.

(** [order_by]: a stable insertion sort; [before x y] says that [x] may
    stand in front of [y]. Rows with equal sort keys keep the order of the
    table, where the store would be free to pick any. *)
Variable before : A -> A -> bool.

Fixpoint insert_row (x : A) (l : list A) : list A :=
  match l with
  | [] => [x]
  | y :: l' => if before x y then x :: l else y :: insert_row x l'
  end.

Fixpoint order_by (l : list A) : list A :=
  match l with
  | [] => []
  | x :: l' => insert_row x (order_by l')
  end.
End Queryset.

(** [.exclude(…)], [.exists()], [.first()], [.count()] *)
Definition exclude {A : Type} (f : A -> bool) (l : list A) : list A :=
  filter (fun x => negb (f x)) l.

Definition exists_ {A : Type} (l : list A) : bool :=
  match l with
  | [] => false
  | _ :: _ => true
  end.

Definition first {A : Type} (l : list A) : option A :=
  match l with
  | [] => None
  | x :: _ => Some x
  end.

Definition count {A : Type} (l : list A) : Z := Z.of_nat (List.length l).

(** SQL comparison of a nullable column with a value: never true on NULL. *)
Definition column_lte (c : option date) (v : date) : bool :=
  match c with
  | Some x => x <=? v
  | None => false
  end.

Definition column_gte (c : option date) (v : date) : bool :=
  match c with
  | Some x => x >=? v
  | None => false
  end.

Definition isnull {A : Type} (c : option A) : bool :=
  match c with
  | Some _ => false
  | None => true
  end.

(** [filter(column=value)] where the value handed over may be [None]: a
    NOT NULL column then matches no row. *)
Definition column_is {A : Type} (eqb : A -> A -> bool) (c : A) (v : option A) : bool :=
  match v with
  | Some x => eqb c x
  | None => false
  end.

(** [if self.pk:] — a primary key is falsy when it is [None] or [0]. *)
Definition truthy_pk (pk : option Z) : bool :=
  match pk with
  | Some k => negb (k =? 0)
  | None => false
  end.

(** Equality of two primary keys. *)
Definition pk_eqb (a b : option Z) : bool :=
  match a, b with
  | Some x, Some y => x =? y
  | None, None => true
  | _, _ => false
  end.

(** Descending order on a nullable date column (NULL sorts last). *)
Definition desc_before (a b : option date) : bool :=
  match a, b with
  | Some x, Some y => y <=? x
  | Some _, None => true
  | None, Some _ => false
  | None, None => true
  end.

(** A fresh AUTO_INCREMENT key: above every key of the table. *)
Definition next_pk (pks : list (option Z)) : Z :=
  1 + fold_right (fun p m => match p with Some k => Z.max k m | None => m end) 0 pks.

(** ** Files and paths *)

(** The media storage: the paths that hold a regular file. *)
Definition files := list string.

(** os.path.isfile(path) *)
Definition isfile (path : string) (fs : files) : bool :=
  existsb (String.eqb path) fs.

(** os.remove(path) *)
Definition os_remove (path : string) (fs : files) : files :=
  filter (fun p => negb (String.eqb path p)) fs.

Fixpoint has_slash (p : string) : bool :=
  match p with
  | EmptyString => false
  | String c rest => Ascii.eqb c "/" || has_slash rest
  end.

(** os.path.basename(p): what follows the last slash. *)
Fixpoint basename (p : string) : string :=
  match p with
  | EmptyString => EmptyString
  | String c rest =>
      if has_slash rest then basename rest
      else if Ascii.eqb c "/" then rest
      else String c rest
  end.

(** str(n) and format(n, "02d") of a non-negative integer. *)
Definition str (n : nat) : string :=
  NilEmpty.string_of_uint (Nat.to_uint n).

Definition format_02d (n : nat) : string :=
  if (n <? 10)%nat then String "0" (str n) else str n.

(** str.lower() on the ASCII letters, which is all the comparison with
    'true' can see. *)
Definition lower_char (c : ascii) : ascii :=
  let n := nat_of_ascii c in
  if (65 <=? n)%nat && (n <=? 90)%nat then ascii_of_nat (n + 32) else c.

Fixpoint lower (s : string) : string :=
  match s with
  | EmptyString => EmptyString
  | String c rest => String (lower_char c) (lower rest)
  end.

(** ** api/purchases/models.py — PriceHistory *)

Module PriceHistory.

Record t : Type := mk {
  pk : option Z;              (* None until first saved *)
  part : Z;                   (* part_id *)
  price : Z;                  (* DecimalField(decimal_places=2), in hundredths *)
  start_date : option date;
  end_date : option date;     (* None: open-ended *)
  is_active : bool;
  quote_file : option string;
  created_at : Z
}.

Definition set_pk (k : option Z) (r : t) : t :=
  mk k (part r) (price r) (start_date r) (end_date r) (is_active r)
     (quote_file r) (created_at r).

Definition set_is_active (b : bool) (r : t) : t :=
  mk (pk r) (part r) (price r) (start_date r) (end_date r) b
     (quote_file r) (created_at r).

(** Meta.ordering = ['-start_date', '-created_at'] *)
Definition Meta_before (a b : t) : bool :=
  match start_date a, start_date b with
  | Some x, Some y => (y <? x) || ((y =? x) && (created_at b <=? created_at a))
  | Some _, None => true
  | None, Some _ => false
  | None, None => created_at b <=? created_at a
  end.

Definition objects_all (objects : list t) : list t :=
  order_by Meta_before objects.

(** def _is_overlapping(self, other) *)
Definition _is_overlapping (self other : t) : result bool :=
  match end_date self with
  | None =>
      match end_date other with
      | None => ret true
      | Some _ => date_ge (end_date other) (start_date self)
      end
  | Some _ =>
      match end_date other with
      | None => date_ge (end_date self) (start_date other)
      | Some _ =>
          b <- date_le (start_date self) (end_date other) ;;
          if b then date_ge (end_date self) (start_date other) else ret false
      end
  end.

(** The [for history in overlapping] loop of [clean]. *)
Fixpoint check_overlapping (self : t) (overlapping : list t) : result unit :=
  match overlapping with
  | [] => ret tt
  | history :: rest =>
      b <- _is_overlapping self history ;;
      if b
      then raise (ValidationError
                    (PeriodOverlaps (start_date history) (end_date history)))
      else check_overlapping self rest
  end.

(** The queryset [clean] iterates over. *)
Definition overlapping (objects : list t) (self : t) : list t :=
  let overlapping :=
    filter (fun h => (part h =? part self) && is_active h) (objects_all objects) in
  if truthy_pk (pk self)
  then exclude (fun h => pk_eqb (pk h) (pk self)) overlapping
  else overlapping.

(** def clean(self) *)
Definition clean (objects : list t) (self : t) : result unit :=
  (match end_date self, start_date self with
   | Some e, Some s =>
       if e <? s then raise (ValidationError EndDateBeforeStart) else ret tt
   | _, _ => ret tt
   end) ;;;
  check_overlapping self (overlapping objects self).

(** [models.Model.save]: UPDATE the row holding the key when there is one,
    INSERT otherwise (under a fresh key when the instance has none). *)
Definition Model_save (self : t) (objects : list t) : t * list t :=
  match pk self with
  | Some k =>
      if existsb (fun r => pk_eqb (pk r) (Some k)) objects
      then (self, map (fun r => if pk_eqb (pk r) (Some k) then self else r) objects)
      else (self, objects ++ [self])
  | None =>
      let self' := set_pk (Some (next_pk (map pk objects))) self in
      (self', objects ++ [self'])
  end.

(** def save(self, *args, **kwargs) *)
Definition save (today : date) (self : t) (objects : list t) : t * list t :=
  let self :=
    match end_date self with
    | Some e => if e <? today then set_is_active false self else self
    | None => self
    end in
  Model_save self objects.

(** @property is_current *)
Definition is_current (today : date) (self : t) : bool :=
  match start_date self with
  | None => false
  | Some s =>
      if negb (is_active self) then false
      else if s >? today then false
      else match end_date self with
           | Some e => if e <? today then false else true
           | None => true
           end
  end.

(** @property is_future *)
Definition is_future (today : date) (self : t) : bool :=
  match start_date self with
  | None => false
  | Some s => s >? today
  end.

(** @property is_expired *)
Definition is_expired (today : date) (self : t) : bool :=
  match end_date self with
  | None => false
  | Some e => e <? today
  end.

(** [if self.quote_file:] — a file field is falsy without a name. *)
Definition quote_file_set (self : t) : option string :=
  match quote_file self with
  | Some name => if String.eqb name "" then None else Some name
  | None => None
  end.

(** What [models.Model.delete] answers: the table without the rows under
    the key, or the refusal of an instance that has no key. *)
Inductive deletion : Type :=
| Deleted (objects : list t)
| NotSaved.

Definition Model_delete (self : t) (objects : list t) : deletion :=
  match pk self with
  | Some k => Deleted (exclude (fun r => pk_eqb (pk r) (Some k)) objects)
  | None => NotSaved
  end.

(** def delete(self, *args, **kwargs) *)
Definition delete (self : t) (objects : list t) (fs : files) : deletion * files :=
  let fs :=
    match quote_file_set self with
    | Some path => if isfile path fs then os_remove path fs else fs
    | None => fs
    end in
  (Model_delete self objects, fs).

(** @property quote_file_name *)
Definition quote_file_name (self : t) : option string :=
  match quote_file_set self with
  | Some name => Some (basename name)
  | None => None
  end.

End PriceHistory.

(** ** api/purchases/models.py — Part *)

Module Part.

Record t : Type := mk {
  pk : option Z;
  product : Z;                (* product_id *)
  supplier_branch : Z;        (* supplier_branch_id *)
  part_number : string;
  part_name : string;
  minimum_order_quantity : Z;
  is_active : bool
}.

Definition set_pk (k : option Z) (r : t) : t :=
  mk k (product r) (supplier_branch r) (part_number r) (part_name r)
     (minimum_order_quantity r) (is_active r).

(** Part.objects.filter(product=…, supplier_branch=…, part_number=…) *)
Definition filter_key (product' supplier_branch' : option Z)
           (part_number' : option string) (objects : list t) : list t :=
  filter (fun r => column_is Z.eqb (product r) product'
                   && column_is Z.eqb (supplier_branch r) supplier_branch'
                   && column_is String.eqb (part_number r) part_number')
         objects.

(** def clean(self) *)
Definition clean (objects : list t) (self : t) : result unit :=
  let existing :=
    if truthy_pk (pk self)
    then exclude (fun r => pk_eqb (pk r) (pk self))
           (filter_key (Some (product self)) (Some (supplier_branch self))
                       (Some (part_number self)) objects)
    else filter_key (Some (product self)) (Some (supplier_branch self))
                    (Some (part_number self)) objects in
  if exists_ existing
  then raise (ValidationError DuplicatePartNumber)
  else ret tt.

(** The related manager [self.price_histories]; an unsaved Part owns no
    row. *)
Definition price_histories (self : t) (histories : list PriceHistory.t)
  : list PriceHistory.t :=
  filter (fun h => pk_eqb (Some (PriceHistory.part h)) (pk self))
         (PriceHistory.objects_all histories).

(** order_by('-start_date') *)
Definition by_start_date_desc (a b : PriceHistory.t) : bool :=
  desc_before (PriceHistory.start_date a) (PriceHistory.start_date b).

(** @property current_price *)
Definition current_price (today : date) (self : t)
           (histories : list PriceHistory.t) : option Z :=
  let price_history :=
    first (order_by by_start_date_desc
             (filter (fun h => PriceHistory.is_active h
                               && column_lte (PriceHistory.start_date h) today)
                     (price_histories self histories))) in
  match price_history with
  | Some h => Some (PriceHistory.price h)
  | None => None
  end.

(** @property current_prices *)
Definition current_prices (today : date) (self : t)
           (histories : list PriceHistory.t) : list PriceHistory.t :=
  order_by by_start_date_desc
    (filter (fun h => isnull (PriceHistory.end_date h)
                      || column_gte (PriceHistory.end_date h) today)
       (filter (fun h => PriceHistory.is_active h
                         && column_lte (PriceHistory.start_date h) today)
          (price_histories self histories))).

(** @property has_multiple_active_prices *)
Definition has_multiple_active_prices (today : date) (self : t)
           (histories : list PriceHistory.t) : bool :=
  count (current_prices today self histories) >? 1.

(** Meta.unique_together = [['product', 'supplier_branch', 'part_number']] *)
Definition same_key (a b : t) : bool :=
  (product a =? product b) && (supplier_branch a =? supplier_branch b)
  && String.eqb (part_number a) (part_number b).

(** [models.Model.save] on the parts table: a row whose key another row
    already holds is refused (Meta.unique_together). *)
Definition Model_save (self : t) (objects : list t) : result (t * list t) :=
  match pk self with
  | Some k =>
      if existsb (fun r => same_key r self && negb (pk_eqb (pk r) (Some k))) objects
      then raise UniqueTogetherError
      else if existsb (fun r => pk_eqb (pk r) (Some k)) objects
      then ret (self, map (fun r => if pk_eqb (pk r) (Some k) then self else r) objects)
      else ret (self, objects ++ [self])
  | None =>
      if existsb (fun r => same_key r self) objects
      then raise UniqueTogetherError
      else
        let self' := set_pk (Some (next_pk (map pk objects))) self in
        ret (self', objects ++ [self'])
  end.

End Part.

(** def quote_file_upload_path(instance, filename); [part] is
    [instance.part], [year] and [month] are those of [timezone.now()]. *)
Definition quote_file_upload_path (part : Part.t) (year month : nat)
           (filename : string) : string :=
  ("quotes/" ++ Part.part_number part ++ "/" ++ str year ++ "/"
   ++ format_02d month ++ "/" ++ filename)%string.

(** ** api/accounts/models.py — User *)

Module User.

Record t : Type := mk {
  is_admin : bool;
  is_superuser : bool;
  is_staff : bool
}.

(** @property is_administrator *)
Definition is_administrator (self : t) : bool :=
  is_admin self || is_superuser self || is_staff self.

End User.

(** ** api/purchases/serializers.py *)

(** [attrs] is the dict of validated request data: a key the request leaves
    out is absent ([None] here), and [attrs.get(key)] then yields [None]. *)

Module PriceHistoryCreateUpdateSerializer.

Record attrs : Type := mk {
  part : option Z;
  price : option Z;
  start_date : option date;
  end_date : option (option date);   (* a present key may hold null *)
  is_active : option bool
}.

(** attrs.get('end_date') *)
Definition get_end_date (a : attrs) : option date :=
  match end_date a with
  | Some v => v
  | None => None
  end.

(** def validate_price(self, value) *)
Definition validate_price (value : Z) : result Z :=
  if value <? 0 then raise (ValidationError PriceBelowZero) else ret value.

(** def validate(self, attrs) *)
Definition validate (a : attrs) : result attrs :=
  let start_date := start_date a in
  let end_date := get_end_date a in
  match end_date, start_date with
  | Some e, Some s =>
      if e <? s then raise (ValidationError EndDateBeforeStart) else ret a
  | _, _ => ret a
  end.

(** [is_valid] on a partial update: the field validators of the keys
    present, then [validate]. *)
Definition is_valid (a : attrs) : result attrs :=
  (match price a with
   | Some v => validate_price v ;;; ret tt
   | None => ret tt
   end) ;;;
  validate a.

Definition get {A : Type} (v : option A) (default : A) : A :=
  match v with
  | Some x => x
  | None => default
  end.

(** for attr, value in validated_data.items(): setattr(instance, attr, value) *)
Definition setattrs (instance : PriceHistory.t) (a : attrs) : PriceHistory.t :=
  PriceHistory.mk (PriceHistory.pk instance)
    (get (part a) (PriceHistory.part instance))
    (get (price a) (PriceHistory.price instance))
    (match start_date a with
     | Some s => Some s
     | None => PriceHistory.start_date instance
     end)
    (get (end_date a) (PriceHistory.end_date instance))
    (get (is_active a) (PriceHistory.is_active instance))
    (PriceHistory.quote_file instance)
    (PriceHistory.created_at instance).

(** [ModelSerializer.update]: set the validated keys on the instance, then
    [instance.save()]. *)
Definition update (today : date) (instance : PriceHistory.t) (a : attrs)
           (objects : list PriceHistory.t) : PriceHistory.t * list PriceHistory.t :=
  PriceHistory.save today (setattrs instance a) objects.

(** extra_kwargs: part, price and start_date are required unless the
    update is partial. *)
Definition required (a : attrs) : result unit :=
  match part a, price a, start_date a with
  | Some _, Some _, Some _ => ret tt
  | _, _, _ => raise (ValidationError FieldRequired)
  end.

(** [is_valid] for a request that may be partial or not. *)
Definition run_validation (partial : bool) (a : attrs) : result attrs :=
  (if partial then ret tt else required a) ;;;
  is_valid a.

(** [ModelSerializer.create]: PriceHistory.objects.create( **validated_data );
    [quote_file] is the name the upload got, [now] the creation time. *)
Definition create (today : date) (now : Z) (quote_file : option string)
           (a : attrs) (objects : list PriceHistory.t)
  : result (PriceHistory.t * list PriceHistory.t) :=
  match part a, price a, start_date a with
  | Some p, Some v, Some s =>
      ret (PriceHistory.save today
             (PriceHistory.mk None p v (Some s) (get_end_date a)
                              (get (is_active a) true) quote_file now)
             objects)
  | _, _, _ => raise (ValidationError FieldRequired)
  end.

End PriceHistoryCreateUpdateSerializer.

Module PartCreateUpdateSerializer.

Record attrs : Type := mk {
  product : option Z;
  supplier_branch : option Z;
  part_number : option string;
  part_name : option string;
  minimum_order_quantity : option Z;
  is_active : option bool
}.

(** def validate_minimum_order_quantity(self, value) *)
Definition validate_minimum_order_quantity (value : Z) : result Z :=
  if value <? 1
  then raise (ValidationError MinimumOrderQuantityBelowOne)
  else ret value.

(** def validate(self, attrs); [instance] is [self.instance] *)
Definition validate (objects : list Part.t) (instance : option Part.t)
           (a : attrs) : result attrs :=
  let product := product a in
  let supplier_branch := supplier_branch a in
  let part_number := part_number a in
  let existing :=
    match instance with
    | Some i =>
        exclude (fun r => pk_eqb (Part.pk r) (Part.pk i))
          (Part.filter_key product supplier_branch part_number objects)
    | None => Part.filter_key product supplier_branch part_number objects
    end in
  if exists_ existing
  then raise (ValidationError DuplicatePartNumber)
  else ret a.

(** extra_kwargs: product, supplier_branch, part_number and part_name are
    required unless the update is partial. *)
Definition required (a : attrs) : result unit :=
  match product a, supplier_branch a, part_number a, part_name a with
  | Some _, Some _, Some _, Some _ => ret tt
  | _, _, _, _ => raise (ValidationError FieldRequired)
  end.

Definition is_valid (partial : bool) (objects : list Part.t)
           (instance : option Part.t) (a : attrs) : result attrs :=
  (if partial then ret tt else required a) ;;;
  (match minimum_order_quantity a with
   | Some v => validate_minimum_order_quantity v ;;; ret tt
   | None => ret tt
   end) ;;;
  validate objects instance a.

Definition get {A : Type} (v : option A) (default : A) : A :=
  match v with
  | Some x => x
  | None => default
  end.

(** [ModelSerializer.create]: Part.objects.create( **validated_data ) *)
Definition create (a : attrs) (objects : list Part.t)
  : result (Part.t * list Part.t) :=
  match product a, supplier_branch a, part_number a, part_name a with
  | Some p, Some b, Some n, Some m =>
      Part.Model_save
        (Part.mk None p b n m (get (minimum_order_quantity a) 1)
                 (get (is_active a) true))
        objects
  | _, _, _, _ => raise (ValidationError FieldRequired)
  end.

(** for attr, value in validated_data.items(): setattr(instance, attr, value) *)
Definition setattrs (instance : Part.t) (a : attrs) : Part.t :=
  Part.mk (Part.pk instance)
    (get (product a) (Part.product instance))
    (get (supplier_branch a) (Part.supplier_branch instance))
    (get (part_number a) (Part.part_number instance))
    (get (part_name a) (Part.part_name instance))
    (get (minimum_order_quantity a) (Part.minimum_order_quantity instance))
    (get (is_active a) (Part.is_active instance)).

(** [ModelSerializer.update]: set the validated keys on the instance, then
    [instance.save()]. *)
Definition update (instance : Part.t) (a : attrs) (objects : list Part.t)
  : result (Part.t * list Part.t) :=
  Part.Model_save (setattrs instance a) objects.

End PartCreateUpdateSerializer.

(** ** api/purchases/views.py *)

Inductive Response : Type :=
| HTTP_204_NO_CONTENT
| HTTP_400_BAD_REQUEST   (* "価格履歴が存在するため削除できません。無効化を検討してください。" *)
| HTTP_403_FORBIDDEN     (* "削除権限がありません" *)
| HTTP_404_NOT_FOUND.

(** The two tables of the purchases app. *)
Record Store : Type := mkStore {
  parts : list Part.t;
  price_histories : list PriceHistory.t
}.

Module PartListCreateView.

(** def create(self, request): POST /parts/ *)
Definition create (data : PartCreateUpdateSerializer.attrs) (objects : list Part.t)
  : result (Part.t * list Part.t) :=
  a <- PartCreateUpdateSerializer.is_valid false objects None data ;;
  PartCreateUpdateSerializer.create a objects.

End PartListCreateView.

Module PartDetailView.

(** get_object(): the row of the table under the key, or 404 *)
Definition get_object (pk : Z) (objects : list Part.t) : result Part.t :=
  match find (fun r => pk_eqb (Part.pk r) (Some pk)) objects with
  | Some instance => ret instance
  | None => raise Http404
  end.

(** PUT ([partial = false]) and PATCH ([partial = true]) /parts/<pk>/ *)
Definition update (partial : bool) (pk : Z)
           (data : PartCreateUpdateSerializer.attrs) (objects : list Part.t)
  : result (Part.t * list Part.t) :=
  instance <- get_object pk objects ;;
  a <- PartCreateUpdateSerializer.is_valid partial objects (Some instance) data ;;
  PartCreateUpdateSerializer.update instance a objects.

(** perform_destroy(instance): the row goes, and ON DELETE CASCADE takes
    the price histories that point at it. *)
Definition perform_destroy (instance : Part.t) (s : Store) : Store :=
  mkStore
    (exclude (fun r => pk_eqb (Part.pk r) (Part.pk instance)) (parts s))
    (exclude (fun h => pk_eqb (Some (PriceHistory.part h)) (Part.pk instance))
             (price_histories s)).

(** def destroy(self, request): DELETE /parts/<pk>/ *)
Definition destroy (user : User.t) (pk : Z) (s : Store) : Response * Store :=
  if negb (User.is_administrator user)
  then (HTTP_403_FORBIDDEN, s)
  else
    match get_object pk (parts s) with
    | inl _ => (HTTP_404_NOT_FOUND, s)
    | inr instance =>
        if exists_ (Part.price_histories instance (price_histories s))
        then (HTTP_400_BAD_REQUEST, s)
        else (HTTP_204_NO_CONTENT, perform_destroy instance s)
    end.

End PartDetailView.

Module PriceHistoryDetailView.

Definition get_object (pk : Z) (objects : list PriceHistory.t)
  : result PriceHistory.t :=
  match find (fun r => pk_eqb (PriceHistory.pk r) (Some pk)) objects with
  | Some instance => ret instance
  | None => raise Http404
  end.

(** PATCH /price-histories/<pk>/ *)
Definition partial_update (today : date) (pk : Z)
           (data : PriceHistoryCreateUpdateSerializer.attrs)
           (objects : list PriceHistory.t)
  : result (PriceHistory.t * list PriceHistory.t) :=
  instance <- get_object pk objects ;;
  a <- PriceHistoryCreateUpdateSerializer.is_valid data ;;
  ret (PriceHistoryCreateUpdateSerializer.update today instance a objects).

(** PUT ([partial = false]) and PATCH ([partial = true])
    /price-histories/<pk>/ *)
Definition update (partial : bool) (today : date) (pk : Z)
           (data : PriceHistoryCreateUpdateSerializer.attrs)
           (objects : list PriceHistory.t)
  : result (PriceHistory.t * list PriceHistory.t) :=
  instance <- get_object pk objects ;;
  a <- PriceHistoryCreateUpdateSerializer.run_validation partial data ;;
  ret (PriceHistoryCreateUpdateSerializer.update today instance a objects).

(** def destroy(self, request): DELETE /price-histories/<pk>/. The answer
    is [None] when an exception leaves the view. *)
Definition destroy (user : User.t) (pk : Z)
           (objects : list PriceHistory.t) (fs : files)
  : option Response * list PriceHistory.t * files :=
  if negb (User.is_administrator user)
  then (Some HTTP_403_FORBIDDEN, objects, fs)
  else
    match get_object pk objects with
    | inl _ => (Some HTTP_404_NOT_FOUND, objects, fs)
    | inr instance =>
        match PriceHistory.delete instance objects fs with
        | (PriceHistory.Deleted objects', fs') =>
            (Some HTTP_204_NO_CONTENT, objects', fs')
        | (PriceHistory.NotSaved, fs') => (None, objects, fs')
        end
    end.

End PriceHistoryDetailView.

Module PriceHistoryListCreateView.

(** The query parameters the view reads. [part] and [product] hold the
    key a non-empty parameter stands for ([None]: absent or empty);
    [is_active] and [status] hold the text as sent ([None]: absent). *)
Record query_params : Type := mk {
  part : option Z;
  product : option Z;
  is_active : option string;
  status : option string
}.

(** def get_queryset(self) *)
Definition get_queryset (today : date) (params : query_params)
           (parts : list Part.t) (objects : list PriceHistory.t)
  : list PriceHistory.t :=
  let queryset := objects in
  let queryset :=
    match part params with
    | Some part_id => filter (fun h => PriceHistory.part h =? part_id) queryset
    | None => queryset
    end in
  let queryset :=
    match product params with
    | Some product_id =>
        filter (fun h =>
                  existsb (fun p => pk_eqb (Part.pk p) (Some (PriceHistory.part h))
                                    && (Part.product p =? product_id))
                          parts)
               queryset
    | None => queryset
    end in
  let queryset :=
    match is_active params with
    | Some is_active =>
        filter (fun h => Bool.eqb (PriceHistory.is_active h)
                                  (String.eqb (lower is_active) "true"))
               queryset
    | None => queryset
    end in
  let queryset :=
    match status params with
    | Some status_filter =>
        if String.eqb status_filter "current" then
          filter (fun h => isnull (PriceHistory.end_date h)
                           || column_gte (PriceHistory.end_date h) today)
            (filter (fun h => PriceHistory.is_active h
                              && column_lte (PriceHistory.start_date h) today)
                    queryset)
        else if String.eqb status_filter "future" then
          filter (fun h => match PriceHistory.start_date h with
                           | Some s => s >? today
                           | None => false
                           end)
                 queryset
        else if String.eqb status_filter "expired" then
          filter (fun h => negb (isnull (PriceHistory.end_date h))
                           && match PriceHistory.end_date h with
                              | Some e => e <? today
                              | None => false
                              end)
                 queryset
        else queryset
    | None => queryset
    end in
  order_by PriceHistory.Meta_before queryset.

(** def create(self, request): POST /price-histories/ *)
Definition create (today : date) (now : Z) (quote_file : option string)
           (data : PriceHistoryCreateUpdateSerializer.attrs)
           (objects : list PriceHistory.t)
  : result (PriceHistory.t * list PriceHistory.t) :=
  a <- PriceHistoryCreateUpdateSerializer.run_validation false data ;;
  PriceHistoryCreateUpdateSerializer.create today now quote_file a objects.

End PriceHistoryListCreateView.

(** * Properties *)

(** ** Vocabulary of the statements *)

(** The pairwise rule in the words of the design: the candidate range is
    [S, E], the other range is [S', E']; [None] is an unbounded end. *)
Definition pairwise_rule (S : date) (E : option date) (S' : date) (E' : option date)
  : Prop :=
  match E, E' with
  | None, None => True
  | None, Some e' => e' >= S
  | Some e, None => e >= S'
  | Some e, Some e' => S <= e' /\ e >= S'
  end.

(** The candidate's range overlaps the row [h] by the pairwise rule. *)
Definition overlaps (self h : PriceHistory.t) : Prop :=
  exists S S',
    PriceHistory.start_date self = Some S /\
    PriceHistory.start_date h = Some S' /\
    pairwise_rule S (PriceHistory.end_date self) S' (PriceHistory.end_date h).

(** The comparison set: the other active rows of the candidate's part, the
    candidate's own row left out when the candidate already has a key. *)
Definition comparison_set (objects : list PriceHistory.t) (self h : PriceHistory.t)
  : Prop :=
  In h objects /\
  PriceHistory.part h = PriceHistory.part self /\
  PriceHistory.is_active h = true /\
  (truthy_pk (PriceHistory.pk self) = true ->
   PriceHistory.pk h <> PriceHistory.pk self).

(** Invariant A on one row. *)
Definition range_ordered (r : PriceHistory.t) : Prop :=
  forall s e,
    PriceHistory.start_date r = Some s -> PriceHistory.end_date r = Some e -> s <= e.

(** The start date column is NOT NULL. *)
Definition has_start_date (r : PriceHistory.t) : Prop :=
  PriceHistory.start_date r <> None.

(** A row a query on [today] may take for a started, active one. *)
Definition active_and_started (today : date) (self : Part.t) (h : PriceHistory.t)
  : Prop :=
  Part.pk self = Some (PriceHistory.part h) /\
  PriceHistory.is_active h = true /\
  exists s, PriceHistory.start_date h = Some s /\ s <= today.

(** Start dates run downwards along a queryset. *)
Definition start_date_descending (l : list PriceHistory.t) : Prop :=
  StronglySorted
    (fun a b => forall sa sb,
         PriceHistory.start_date a = Some sa ->
         PriceHistory.start_date b = Some sb -> sb <= sa)
    l.

(** The uniqueness triple of a part. *)
Definition key_of (r : Part.t) : Z * Z * string :=
  (Part.product r, Part.supplier_branch r, Part.part_number r).

(** The parts table holds no key twice, primary or (product, supplier
    branch, part number). *)
Definition well_keyed (objects : list Part.t) : Prop :=
  NoDup (map Part.pk objects) /\ NoDup (map key_of objects).

(** The request data passes the field validators. *)
Definition fields_valid (data : PartCreateUpdateSerializer.attrs) : Prop :=
  forall v, PartCreateUpdateSerializer.minimum_order_quantity data = Some v -> 1 <= v.

(** The errors that report a breach of the uniqueness triple. *)
Definition DuplicateKeyError (e : exn) : Prop :=
  e = ValidationError DuplicatePartNumber \/ e = UniqueTogetherError.

(** The request data that spells out every field of a part. *)
Definition attrs_of_part (r : Part.t) : PartCreateUpdateSerializer.attrs :=
  PartCreateUpdateSerializer.mk
    (Some (Part.product r)) (Some (Part.supplier_branch r))
    (Some (Part.part_number r)) (Some (Part.part_name r))
    (Some (Part.minimum_order_quantity r)) (Some (Part.is_active r)).

(** ** Sample data

    Part 1 holds one active price, 100.00 over [2024-01-01, 2024-06-30]
    (ordinals 738886 and 739067). *)

Definition row_2024_h1 : PriceHistory.t :=
  PriceHistory.mk (Some 1) 1 10000 (Some 738886) (Some 739067) true None 0.

(** A new active row over [2024-06-15, 2024-12-31]. *)
Definition candidate_2024_h2 : PriceHistory.t :=
  PriceHistory.mk None 1 12000 (Some 739052) (Some 739251) true None 1.

(** The same row with the active flag cleared. *)
Definition candidate_inactive : PriceHistory.t :=
  PriceHistory.set_is_active false candidate_2024_h2.

(** A new active open-ended row from 2024-07-01. *)
Definition candidate_2024_07_01 : PriceHistory.t :=
  PriceHistory.mk None 1 12000 (Some 739068) None true None 1.

(** Part 1 itself, and a table where its only price is open-ended:
    100.00 from 2024-01-01. *)
Definition part_P : Part.t :=
  Part.mk (Some 1) 10 20 "P-001" "bracket" 1 true.

Definition row_2024_open : PriceHistory.t :=
  PriceHistory.mk (Some 2) 1 10000 (Some 738886) None true None 0.

(** The body of PATCH /price-histories/2/ with only
    {"end_date": "2023-12-31"} (ordinal 738885). *)
Definition patch_end_date : PriceHistoryCreateUpdateSerializer.attrs :=
  PriceHistoryCreateUpdateSerializer.mk None None None (Some (Some 738885)) None.

(** A second part, and two requests that reuse the triple of part 1:
    POST /parts/ with the full triple, and PATCH /parts/2/ with only
    {"part_number": "P-001"}. *)
Definition part_Q : Part.t :=
  Part.mk (Some 2) 10 20 "Q-002" "washer" 1 true.

Definition post_same_key : PartCreateUpdateSerializer.attrs :=
  PartCreateUpdateSerializer.mk (Some 10) (Some 20) (Some "P-001"%string)
                                (Some "bracket B"%string) None None.

Definition patch_part_number : PartCreateUpdateSerializer.attrs :=
  PartCreateUpdateSerializer.mk None None (Some "P-001"%string) None None None.

(** The body of POST /price-histories/ for the second-half row above. *)
Definition post_2024_h2 : PriceHistoryCreateUpdateSerializer.attrs :=
  PriceHistoryCreateUpdateSerializer.mk
    (Some 1) (Some 12000) (Some 739052) (Some (Some 739251)) (Some true).

(** The body of POST /parts/ for part 2, quantity and flag left out. *)
Definition post_washer : PartCreateUpdateSerializer.attrs :=
  PartCreateUpdateSerializer.mk (Some 10) (Some 20) (Some "Q-002"%string)
                                (Some "washer"%string) None None.

(** Row 2 with a quote uploaded in June 2024 as "quote.pdf". *)
Definition row_with_quote : PriceHistory.t :=
  PriceHistory.mk (Some 2) 1 10000 (Some 738886) None true
                  (Some (quote_file_upload_path part_P 2024 6 "quote.pdf")) 0.

(** ** Querysets: ordering *)

Section OrderBy.
Context {A : Type}.
Variable before : A -> A -> bool.
Hypothesis before_total : forall x y, before x y = true \/ before y x = true.
Hypothesis before_trans :
  forall x y z, before x y = true -> before y z = true -> before x z = true.

Lemma insert_row_perm (x : A) (l : list A) :
  Permutation (insert_row before x l) (x :: l).
Proof.
  induction l as [| y l IH]; simpl.
  - apply Permutation_refl.
  - destruct (before x y).
    + apply Permutation_refl.
    + eapply perm_trans; [apply perm_skip, IH | apply perm_swap].
Qed.

Lemma order_by_perm (l : list A) : Permutation (order_by before l) l.
Proof.
  induction l as [| x l IH]; simpl.
  - constructor.
  - eapply perm_trans; [apply insert_row_perm | apply perm_skip, IH].
Qed.

Lemma order_by_In (l : list A) (x : A) : In x (order_by before l) <-> In x l.
Proof.
  split; apply Permutation_in;
    [apply order_by_perm | apply Permutation_sym, order_by_perm].
Qed.

Lemma insert_row_sorted (x : A) (l : list A) :
  StronglySorted (fun a b => before a b = true) l ->
  StronglySorted (fun a b => before a b = true) (insert_row before x l).
Proof.
  induction 1 as [| y l Hs IH Hy]; simpl.
  - constructor; constructor.
  - destruct (before x y) eqn:Hxy.
    + constructor.
      * constructor; assumption.
      * constructor; [assumption |].
        eapply Forall_impl; [| exact Hy].
        intros z Hz. eapply before_trans; eassumption.
    + constructor; [assumption |].
      eapply Permutation_Forall; [apply Permutation_sym, insert_row_perm |].
      constructor; [| assumption].
      destruct (before_total x y) as [H | H]; [congruence | exact H].
Qed.

Lemma order_by_sorted (l : list A) :
  StronglySorted (fun a b => before a b = true) (order_by before l).
Proof.
  induction l as [| x l IH]; simpl.
  - constructor.
  - apply insert_row_sorted, IH.
Qed.

Lemma order_by_length (l : list A) : List.length (order_by before l) = List.length l.
Proof. apply Permutation_length, order_by_perm. Qed.

(** The head of an ordered queryset stands before every row of it. *)
Lemma first_order_by (l : list A) (x : A) :
  first (order_by before l) = Some x ->
  In x l /\ forall y, In y l -> before x y = true.
Proof.
  intros Hfirst.
  pose proof (order_by_sorted l) as Hs.
  pose proof (order_by_In l) as Hin.
  destruct (order_by before l) as [| z r]; simpl in Hfirst; [discriminate |].
  injection Hfirst as ->.
  split.
  - apply Hin. left. reflexivity.
  - intros y Hy. apply Hin in Hy. destruct Hy as [-> | Hy].
    + destruct (before_total y y); assumption.
    + inversion Hs as [| ? ? _ Hall]; subst.
      rewrite Forall_forall in Hall. apply Hall, Hy.
Qed.

Lemma first_order_by_None (l : list A) :
  first (order_by before l) = None <-> l = [].
Proof.
  pose proof (order_by_length l) as Hlen.
  destruct (order_by before l); destruct l; simpl in *;
    split; intros; try reflexivity; try discriminate.
Qed.
End OrderBy.

(** ** The overlap predicate *)

Lemma pk_eqb_eq (a b : option Z) : pk_eqb a b = true <-> a = b.
Proof.
  destruct a as [x |], b as [y |]; simpl; split; intros H;
    try discriminate; try reflexivity.
  - apply Z.eqb_eq in H. congruence.
  - injection H as ->. apply Z.eqb_refl.
Qed.

Lemma pk_eqb_neq (a b : option Z) : pk_eqb a b = false <-> a <> b.
Proof.
  rewrite <- pk_eqb_eq. destruct (pk_eqb a b); split; congruence.
Qed.

(** With both start dates set, [_is_overlapping] returns a boolean, and it
    is the pairwise rule. *)
Lemma is_overlapping_pairwise (self other : PriceHistory.t) (S S' : date) :
  PriceHistory.start_date self = Some S ->
  PriceHistory.start_date other = Some S' ->
  exists b,
    PriceHistory._is_overlapping self other = ret b /\
    (b = true <->
     pairwise_rule S (PriceHistory.end_date self) S' (PriceHistory.end_date other)).
Proof.
  intros Hs Hs'. unfold PriceHistory._is_overlapping, pairwise_rule.
  rewrite Hs, Hs'.
  destruct (PriceHistory.end_date self) as [e |],
           (PriceHistory.end_date other) as [e' |]; simpl.
  - destruct (S <=? e') eqn:Hle.
    + exists (e >=? S'). split; [reflexivity |].
      apply Z.leb_le in Hle. rewrite Z.geb_le. lia.
    + exists false. split; [reflexivity |].
      apply Z.leb_gt in Hle. split; [discriminate | lia].
  - exists (e >=? S'). split; [reflexivity |]. rewrite Z.geb_le. lia.
  - exists (e' >=? S). split; [reflexivity |]. rewrite Z.geb_le. lia.
  - exists true. split; [reflexivity | tauto].
Qed.

Lemma is_overlapping_true (self other : PriceHistory.t) :
  PriceHistory.start_date self <> None ->
  PriceHistory.start_date other <> None ->
  PriceHistory._is_overlapping self other = ret true <-> overlaps self other.
Proof.
  intros Hs Hs'.
  destruct (PriceHistory.start_date self) as [S |] eqn:ES; [| congruence].
  destruct (PriceHistory.start_date other) as [S' |] eqn:ES'; [| congruence].
  destruct (is_overlapping_pairwise self other S S' ES ES') as [b [Hb Hrule]].
  rewrite Hb. unfold overlaps. rewrite ES, ES'. split.
  - intros H. exists S, S'. repeat split. apply Hrule.
    unfold ret in H. congruence.
  - intros [S0 [S0' [H1 [H2 H3]]]].
    injection H1 as <-. injection H2 as <-.
    apply Hrule in H3. rewrite H3. reflexivity.
Qed.

(** (C10) The pairwise overlap predicate is symmetric: for two price-history
    rows that each carry a start date (the end dates being optional),
    [_is_overlapping a b] and [_is_overlapping b a] return the same value. *)
Theorem is_overlapping_symmetric (a b : PriceHistory.t) :
  has_start_date a ->
  has_start_date b ->
  PriceHistory._is_overlapping a b = PriceHistory._is_overlapping b a.
Proof.
  unfold has_start_date. intros Ha Hb.
  destruct (PriceHistory.start_date a) as [S |] eqn:ES; [| congruence].
  destruct (PriceHistory.start_date b) as [S' |] eqn:ES'; [| congruence].
  unfold PriceHistory._is_overlapping. rewrite ES, ES'.
  destruct (PriceHistory.end_date a) as [e |],
           (PriceHistory.end_date b) as [e' |]; simpl; try reflexivity.
  rewrite !Z.geb_leb.
  destruct (S <=? e'), (S' <=? e); reflexivity.
Qed.

(** ** [clean]: the overlap check *)

Lemma overlapping_In (objects : list PriceHistory.t) (self h : PriceHistory.t) :
  In h (PriceHistory.overlapping objects self) <-> comparison_set objects self h.
Proof.
  unfold PriceHistory.overlapping, comparison_set, exclude, PriceHistory.objects_all.
  destruct (truthy_pk (PriceHistory.pk self)).
  - rewrite !filter_In, order_by_In, andb_true_iff, Z.eqb_eq,
      negb_true_iff, pk_eqb_neq.
    intuition congruence.
  - rewrite filter_In, order_by_In, andb_true_iff, Z.eqb_eq.
    intuition congruence.
Qed.

(** The loop stops at the first row that overlaps and cites its range. *)
Lemma check_overlapping_spec (self : PriceHistory.t) (l : list PriceHistory.t) :
  has_start_date self ->
  Forall has_start_date l ->
  (exists h, In h l /\ overlaps self h /\
     PriceHistory.check_overlapping self l =
     raise (ValidationError (PeriodOverlaps (PriceHistory.start_date h)
                                            (PriceHistory.end_date h))))
  \/ ((forall h, In h l -> ~ overlaps self h) /\
      PriceHistory.check_overlapping self l = ret tt).
Proof.
  intros Hs Hall. induction Hall as [| x l Hx Hall IH]; simpl.
  - right. split; [intros h [] | reflexivity].
  - pose proof (is_overlapping_true self x Hs Hx) as Htrue.
    destruct (PriceHistory.start_date self) as [S |] eqn:ES;
      [| exfalso; apply Hs; exact ES].
    destruct (PriceHistory.start_date x) as [S' |] eqn:ES';
      [| exfalso; apply Hx; exact ES'].
    destruct (is_overlapping_pairwise self x S S' ES ES') as [b [Hb _]].
    rewrite Hb in *. simpl. destruct b.
    + left. exists x. rewrite ES'. repeat split.
      * left. reflexivity.
      * apply Htrue. reflexivity.
    + destruct IH as [[h [Hin [Hov Heq]]] | [Hnone Heq]].
      * left. exists h. repeat split; [right; exact Hin | exact Hov | exact Heq].
      * right. split; [| exact Heq].
        intros h [<- | Hin]; [| apply Hnone, Hin].
        intros Hov. apply Htrue in Hov. discriminate.
Qed.

Lemma clean_range_ordered (objects : list PriceHistory.t) (self : PriceHistory.t) :
  range_ordered self ->
  PriceHistory.clean objects self =
  PriceHistory.check_overlapping self (PriceHistory.overlapping objects self).
Proof.
  intros Hord. unfold PriceHistory.clean.
  destruct (PriceHistory.end_date self) as [e |] eqn:Ee; [| reflexivity].
  destruct (PriceHistory.start_date self) as [s |] eqn:Es; [| reflexivity].
  specialize (Hord s e Es Ee).
  destruct (e <? s) eqn:Hlt; [apply Z.ltb_lt in Hlt; lia | reflexivity].
Qed.

(** What [clean] answers for a candidate with a start date and an ordered
    range, on a table whose rows all carry a start date. *)
Lemma clean_overlap_spec (objects : list PriceHistory.t) (self : PriceHistory.t) :
  has_start_date self ->
  range_ordered self ->
  Forall has_start_date objects ->
  (exists h, comparison_set objects self h /\ overlaps self h /\
     PriceHistory.clean objects self =
     raise (ValidationError (PeriodOverlaps (PriceHistory.start_date h)
                                            (PriceHistory.end_date h))))
  \/ ((forall h, comparison_set objects self h -> ~ overlaps self h) /\
      PriceHistory.clean objects self = ret tt).
Proof.
  intros Hs Hord Hall. rewrite clean_range_ordered by exact Hord.
  assert (Hall' : Forall has_start_date (PriceHistory.overlapping objects self)).
  { rewrite Forall_forall in *. intros h Hh. apply overlapping_In in Hh.
    apply Hall, Hh. }
  destruct (check_overlapping_spec self _ Hs Hall')
    as [[h [Hin [Hov Heq]]] | [Hnone Heq]].
  - left. exists h. rewrite <- overlapping_In. auto.
  - right. split; [| exact Heq].
    intros h Hh. apply Hnone, overlapping_In, Hh.
Qed.

(** [clean] never reads the candidate's own active flag. *)
Lemma check_overlapping_set_is_active
      (b : bool) (self : PriceHistory.t) (l : list PriceHistory.t) :
  PriceHistory.check_overlapping (PriceHistory.set_is_active b self) l =
  PriceHistory.check_overlapping self l.
Proof.
  induction l as [| h l IH]; simpl; [reflexivity |].
  rewrite IH. reflexivity.
Qed.

Lemma clean_set_is_active
      (b : bool) (objects : list PriceHistory.t) (self : PriceHistory.t) :
  PriceHistory.clean objects (PriceHistory.set_is_active b self) =
  PriceHistory.clean objects self.
Proof.
  unfold PriceHistory.clean, PriceHistory.overlapping.
  rewrite !check_overlapping_set_is_active. reflexivity.
Qed.

(** (C1) For a candidate with a start date [S] and an ordered range [S, E],
    on a table whose rows carry their start date: [_is_overlapping] answers
    by the pairwise rule (both ends unbounded: overlap; only E unbounded:
    E' >= S; only E' unbounded: E >= S'; both bounded: S <= E' and E >= S'),
    and [clean] fails with the overlap error, citing the range of an
    overlapping row, when the candidate overlaps a row of the comparison set
    (the other active rows of its part, its own row excluded when it has a
    key); when it overlaps none, [clean] passes. *)
Theorem clean_overlap_by_pairwise_rule
        (objects : list PriceHistory.t) (self : PriceHistory.t) (S : date) :
  PriceHistory.start_date self = Some S ->
  range_ordered self ->
  Forall has_start_date objects ->
  (forall other S',
      PriceHistory.start_date other = Some S' ->
      exists b,
        PriceHistory._is_overlapping self other = ret b /\
        (b = true <->
         pairwise_rule S (PriceHistory.end_date self)
                       S' (PriceHistory.end_date other)))
  /\ ((exists h, comparison_set objects self h /\ overlaps self h) ->
      exists h,
        comparison_set objects self h /\ overlaps self h /\
        PriceHistory.clean objects self =
        raise (ValidationError (PeriodOverlaps (PriceHistory.start_date h)
                                               (PriceHistory.end_date h))))
  /\ ((forall h, comparison_set objects self h -> ~ overlaps self h) ->
      PriceHistory.clean objects self = ret tt).
Proof.
  intros HS Hord Hall.
  assert (Hs : has_start_date self) by (unfold has_start_date; congruence).
  split; [| split].
  - intros other S' HS'. apply is_overlapping_pairwise; assumption.
  - intros [h0 [Hc0 Hov0]].
    destruct (clean_overlap_spec objects self Hs Hord Hall)
      as [[h [Hc [Hov Heq]]] | [Hnone _]].
    + exists h. auto.
    + exfalso. exact (Hnone h0 Hc0 Hov0).
  - intros Hnone.
    destruct (clean_overlap_spec objects self Hs Hord Hall)
      as [[h [Hc [Hov _]]] | [_ Heq]].
    + exfalso. exact (Hnone h Hc Hov).
    + exact Heq.
Qed.

Lemma clean_overlap_by_pairwise_rule_witness :
  exists h,
    comparison_set [row_2024_h1] candidate_2024_h2 h /\
    overlaps candidate_2024_h2 h /\
    PriceHistory.clean [row_2024_h1] candidate_2024_h2 =
    raise (ValidationError (PeriodOverlaps (PriceHistory.start_date h)
                                           (PriceHistory.end_date h))).
Proof.
  apply (proj1 (proj2 (clean_overlap_by_pairwise_rule
                         [row_2024_h1] candidate_2024_h2 739052
                         eq_refl
                         ltac:(intros s e H1 H2; simpl in *;
                               injection H1 as <-; injection H2 as <-; lia)
                         ltac:(repeat constructor; simpl; discriminate)))).
  exists row_2024_h1. split.
  - unfold comparison_set; simpl. repeat split; try tauto; discriminate.
  - exists 739052, 738886. simpl. repeat split; lia.
Defined.

Lemma is_overlapping_symmetric_witness :
  PriceHistory._is_overlapping candidate_2024_h2 row_2024_h1 =
  PriceHistory._is_overlapping row_2024_h1 candidate_2024_h2.
Proof.
  apply (is_overlapping_symmetric candidate_2024_h2 row_2024_h1);
    unfold has_start_date; simpl; discriminate.
Defined.

(** (C2, as stated) An inactive candidate is not exempt: [clean] raises the
    overlap error for a candidate with [is_active = false] whose range
    overlaps the active row of the same part. *)
Lemma inactive_candidate_overlap_error :
  PriceHistory.is_active candidate_inactive = false /\
  PriceHistory.clean [row_2024_h1] candidate_inactive =
  raise (ValidationError (PeriodOverlaps (Some 738886) (Some 739067))).
Proof. split; reflexivity. Qed.

(** (C2, amended) [clean] does not read the candidate's active flag: for a
    candidate with [is_active = false] it answers as for the same row with
    the flag set, and (start date present, range ordered, rows carrying
    their start date) it fails with the overlap error exactly when the
    candidate's range overlaps a row of the comparison set. Only the rows
    compared against are restricted to active ones. *)
Theorem clean_inactive_candidate
        (objects : list PriceHistory.t) (self : PriceHistory.t) :
  PriceHistory.is_active self = false ->
  has_start_date self ->
  range_ordered self ->
  Forall has_start_date objects ->
  PriceHistory.clean objects self =
  PriceHistory.clean objects (PriceHistory.set_is_active true self)
  /\ ((exists s e, PriceHistory.clean objects self =
                   raise (ValidationError (PeriodOverlaps s e)))
      <-> exists h, comparison_set objects self h /\ overlaps self h).
Proof.
  intros _ Hs Hord Hall. split.
  - symmetry. apply clean_set_is_active.
  - destruct (clean_overlap_spec objects self Hs Hord Hall)
      as [[h [Hc [Hov Heq]]] | [Hnone Heq]].
    + split; intros _; eauto.
    + split.
      * intros [s [e H]]. rewrite Heq in H. discriminate.
      * intros [h [Hc Hov]]. exfalso. exact (Hnone h Hc Hov).
Qed.

Lemma clean_inactive_candidate_witness :
  exists s e,
    PriceHistory.clean [row_2024_h1] candidate_inactive =
    raise (ValidationError (PeriodOverlaps s e)).
Proof.
  apply (proj2 (clean_inactive_candidate [row_2024_h1] candidate_inactive
                  eq_refl
                  ltac:(unfold has_start_date; simpl; discriminate)
                  ltac:(intros s e H1 H2; simpl in *;
                        injection H1 as <-; injection H2 as <-; lia)
                  ltac:(repeat constructor; unfold has_start_date; simpl;
                        discriminate))).
  exists row_2024_h1. split.
  - unfold comparison_set; simpl. repeat split; try tauto; discriminate.
  - exists 739052, 738886. simpl. repeat split; lia.
Defined.

(** ** Derived state *)

(** (C9) On the date [today]: an active row whose start date is [today] and
    whose end date is absent is current; an active row already started
    whose end date is [today] is current (the end date is inclusive); a row
    whose end date is [today - 1] is expired. *)
Theorem is_current_is_expired_boundaries (today : date) (self : PriceHistory.t) :
  (PriceHistory.is_active self = true ->
   PriceHistory.start_date self = Some today ->
   PriceHistory.end_date self = None ->
   PriceHistory.is_current today self = true)
  /\ (PriceHistory.is_active self = true ->
      (exists s, PriceHistory.start_date self = Some s /\ s <= today) ->
      PriceHistory.end_date self = Some today ->
      PriceHistory.is_current today self = true)
  /\ (PriceHistory.end_date self = Some (today - 1) ->
      PriceHistory.is_expired today self = true).
Proof.
  unfold PriceHistory.is_current, PriceHistory.is_expired.
  split; [| split].
  - intros -> -> ->. simpl.
    destruct (today >? today) eqn:H; [| reflexivity].
    rewrite Z.gtb_ltb in H. apply Z.ltb_lt in H. lia.
  - intros -> [s [-> Hle]] ->. simpl.
    destruct (s >? today) eqn:H.
    + rewrite Z.gtb_ltb in H. apply Z.ltb_lt in H. lia.
    + rewrite Z.ltb_irrefl. reflexivity.
  - intros ->. apply Z.ltb_lt. lia.
Qed.

Lemma is_current_is_expired_boundaries_witness :
  PriceHistory.is_current 739068 candidate_2024_07_01 = true
  /\ PriceHistory.is_current 739067 row_2024_h1 = true
  /\ PriceHistory.is_expired 739068 row_2024_h1 = true.
Proof.
  split; [| split].
  - apply (proj1 (is_current_is_expired_boundaries 739068 candidate_2024_07_01));
      reflexivity.
  - apply (proj1 (proj2 (is_current_is_expired_boundaries 739067 row_2024_h1)));
      [reflexivity | exists 738886; split; [reflexivity | lia] | reflexivity].
  - apply (proj2 (proj2 (is_current_is_expired_boundaries 739068 row_2024_h1)));
      reflexivity.
Defined.

(** ** Current price *)

Lemma by_start_date_desc_total (a b : PriceHistory.t) :
  Part.by_start_date_desc a b = true \/ Part.by_start_date_desc b a = true.
Proof.
  unfold Part.by_start_date_desc, desc_before.
  destruct (PriceHistory.start_date a) as [x |],
           (PriceHistory.start_date b) as [y |]; auto.
  destruct (Z.leb_spec y x); [left; reflexivity | right; apply Z.leb_le; lia].
Qed.

Lemma by_start_date_desc_trans (a b c : PriceHistory.t) :
  Part.by_start_date_desc a b = true ->
  Part.by_start_date_desc b c = true ->
  Part.by_start_date_desc a c = true.
Proof.
  unfold Part.by_start_date_desc, desc_before.
  destruct (PriceHistory.start_date a) as [x |],
           (PriceHistory.start_date b) as [y |],
           (PriceHistory.start_date c) as [z |];
    try discriminate; try reflexivity.
  rewrite !Z.leb_le. lia.
Qed.

Lemma column_lte_spec (c : option date) (v : date) :
  column_lte c v = true <-> exists s, c = Some s /\ s <= v.
Proof.
  destruct c as [x |]; simpl.
  - rewrite Z.leb_le. split.
    + intros H. exists x. auto.
    + intros [s [Hs Hle]]. congruence.
  - split; [discriminate | intros [s [Hs _]]; discriminate].
Qed.

Lemma price_histories_In (self : Part.t) (histories : list PriceHistory.t)
      (h : PriceHistory.t) :
  In h (Part.price_histories self histories) <->
  In h histories /\ Part.pk self = Some (PriceHistory.part h).
Proof.
  unfold Part.price_histories, PriceHistory.objects_all.
  rewrite filter_In, order_by_In, pk_eqb_eq. intuition congruence.
Qed.

Lemma started_In (today : date) (self : Part.t) (histories : list PriceHistory.t)
      (h : PriceHistory.t) :
  In h (filter (fun h => PriceHistory.is_active h
                         && column_lte (PriceHistory.start_date h) today)
               (Part.price_histories self histories)) <->
  In h histories /\ active_and_started today self h.
Proof.
  unfold active_and_started.
  rewrite filter_In, price_histories_In, andb_true_iff, column_lte_spec. tauto.
Qed.

(** (C3) [current_price part today] is the price of a row of the part that
    is active and has started ([start_date <= today]) and whose start date
    is the greatest among such rows, whatever its end date; it is [None]
    exactly when the part has no active row that has started. *)
Theorem current_price_latest_started
        (today : date) (self : Part.t) (histories : list PriceHistory.t) :
  (forall p,
      Part.current_price today self histories = Some p ->
      exists h s,
        In h histories /\ active_and_started today self h /\
        PriceHistory.price h = p /\
        PriceHistory.start_date h = Some s /\
        forall h' s',
          In h' histories -> active_and_started today self h' ->
          PriceHistory.start_date h' = Some s' -> s' <= s)
  /\ (Part.current_price today self histories = None <->
      forall h, In h histories -> ~ active_and_started today self h)
  /\ ((exists h, In h histories /\ active_and_started today self h) ->
      exists p, Part.current_price today self histories = Some p).
Proof.
  unfold Part.current_price.
  set (qs := filter _ (Part.price_histories self histories)).
  assert (Hqs : forall h, In h qs <-> In h histories /\ active_and_started today self h)
    by (intros h; apply started_In).
  assert (Hnone : first (order_by Part.by_start_date_desc qs) = None <->
                  forall h, In h histories -> ~ active_and_started today self h).
  { rewrite first_order_by_None. split.
    - intros Hnil h Hin Hact.
      assert (Hh : In h qs) by (apply Hqs; auto).
      rewrite Hnil in Hh. exact Hh.
    - intros Hno. destruct qs as [| h r]; [reflexivity |].
      exfalso. destruct (proj1 (Hqs h) (or_introl eq_refl)) as [Hin Hact].
      exact (Hno h Hin Hact). }
  split; [| split].
  - intros p Hp.
    destruct (first (order_by Part.by_start_date_desc qs)) as [h |] eqn:Hf;
      [| discriminate].
    injection Hp as <-.
    apply (first_order_by _ by_start_date_desc_total by_start_date_desc_trans) in Hf.
    destruct Hf as [Hin Hbest].
    apply Hqs in Hin. destruct Hin as [Hin Hact].
    destruct Hact as [Hpk [Hactive [s [Hs Hle]]]].
    exists h, s. repeat split; try assumption.
    + exists s. auto.
    + intros h' s' Hin' Hact' Hs'.
      assert (Hh' : In h' qs) by (apply Hqs; auto).
      specialize (Hbest h' Hh').
      unfold Part.by_start_date_desc, desc_before in Hbest.
      rewrite Hs, Hs' in Hbest. apply Z.leb_le. exact Hbest.
  - destruct (first (order_by Part.by_start_date_desc qs)) as [h |].
    + split; [discriminate |]. intros Hno. apply Hnone in Hno. discriminate.
    + split; [intros _; apply Hnone; reflexivity | reflexivity].
  - intros [h [Hin Hact]].
    destruct (first (order_by Part.by_start_date_desc qs)) as [h0 |] eqn:Hf.
    + eauto.
    + exfalso. exact (proj1 Hnone eq_refl h Hin Hact).
Qed.

Lemma current_price_latest_started_witness :
  exists p, Part.current_price 739007 part_P [row_2024_open] = Some p.
Proof.
  apply (proj2 (proj2 (current_price_latest_started 739007 part_P [row_2024_open]))).
  exists row_2024_open. split; [left; reflexivity |].
  unfold active_and_started; simpl. repeat split.
  exists 738886. split; [reflexivity | lia].
Defined.

(** The two filters of [current_prices] together are [is_current]. *)
Lemma current_filters_is_current (today : date) (h : PriceHistory.t) :
  (PriceHistory.is_active h && column_lte (PriceHistory.start_date h) today)
  && (isnull (PriceHistory.end_date h)
      || column_gte (PriceHistory.end_date h) today)
  = PriceHistory.is_current today h.
Proof.
  unfold PriceHistory.is_current, column_lte, column_gte, isnull.
  destruct (PriceHistory.start_date h) as [s |],
           (PriceHistory.is_active h),
           (PriceHistory.end_date h) as [e |]; simpl; try reflexivity.
  - rewrite Z.gtb_ltb, Z.geb_leb.
    destruct (Z.leb_spec s today), (Z.ltb_spec today s),
             (Z.leb_spec today e), (Z.ltb_spec e today);
      simpl; try reflexivity; lia.
  - rewrite Z.gtb_ltb.
    destruct (Z.leb_spec s today), (Z.ltb_spec today s);
      simpl; try reflexivity; lia.
Qed.

Lemma is_current_spec (today : date) (h : PriceHistory.t) :
  PriceHistory.is_current today h = true <->
  PriceHistory.is_active h = true
  /\ (exists s, PriceHistory.start_date h = Some s /\ s <= today)
  /\ (PriceHistory.end_date h = None
      \/ exists e, PriceHistory.end_date h = Some e /\ e >= today).
Proof.
  rewrite <- current_filters_is_current, !andb_true_iff, orb_true_iff,
    column_lte_spec.
  unfold isnull, column_gte.
  destruct (PriceHistory.end_date h) as [e |].
  - rewrite Z.geb_le. split.
    + intros [H [H' | H']]; [discriminate |].
      split; [tauto |]. split; [tauto |]. right. exists e. split; [reflexivity | lia].
    + intros [Ha [Hs [H' | [e' [He' Hge]]]]]; [discriminate |].
      injection He' as <-. split; [tauto |]. right. lia.
  - split.
    + intros [H _]. split; [tauto |]. split; [tauto |]. left. reflexivity.
    + intros [Ha [Hs _]]. split; [tauto |]. left. reflexivity.
Qed.

Lemma order_by_start_date_descending (l : list PriceHistory.t) :
  start_date_descending (order_by Part.by_start_date_desc l).
Proof.
  unfold start_date_descending.
  pose proof (order_by_sorted _ by_start_date_desc_total by_start_date_desc_trans l)
    as Hs.
  induction Hs as [| a r Hr IH Ha]; constructor; [exact IH |].
  eapply Forall_impl; [| exact Ha].
  intros b Hb sa sb Hsa Hsb.
  unfold Part.by_start_date_desc, desc_before in Hb.
  rewrite Hsa, Hsb in Hb. apply Z.leb_le. exact Hb.
Qed.

Lemma filter_filter {A : Type} (f g : A -> bool) (l : list A) :
  filter g (filter f l) = filter (fun x => f x && g x) l.
Proof.
  induction l as [| x l IH]; simpl; [reflexivity |].
  destruct (f x); simpl; [destruct (g x) |]; rewrite IH; reflexivity.
Qed.

Lemma filter_perm {A : Type} (f : A -> bool) (l l' : list A) :
  Permutation l l' -> Permutation (filter f l) (filter f l').
Proof.
  induction 1 as [| x l l' _ IH | x y l | l l' l'' _ IH1 _ IH2]; simpl.
  - constructor.
  - destruct (f x); [constructor |]; exact IH.
  - destruct (f x), (f y); try apply Permutation_refl; apply perm_swap.
  - eapply perm_trans; eassumption.
Qed.

(** (C6) [current_prices part today] holds exactly the part's rows that are
    active, have started and have not ended ([end_date] absent or
    [>= today]) — the rows for which [is_current] holds, each as often as
    the table has it — in descending order of start date; and
    [has_multiple_active_prices] is the boolean [count > 1] of that
    queryset: a value, never an error, however many rows qualify. *)
Theorem current_prices_exact
        (today : date) (self : Part.t) (histories : list PriceHistory.t) :
  (forall h,
      In h (Part.current_prices today self histories) <->
      In h histories /\ active_and_started today self h /\
      (PriceHistory.end_date h = None
       \/ exists e, PriceHistory.end_date h = Some e /\ e >= today))
  /\ Permutation
       (Part.current_prices today self histories)
       (filter (fun h => pk_eqb (Some (PriceHistory.part h)) (Part.pk self)
                         && PriceHistory.is_current today h)
               histories)
  /\ start_date_descending (Part.current_prices today self histories)
  /\ (Part.has_multiple_active_prices today self histories = true <->
      (1 < List.length (Part.current_prices today self histories))%nat).
Proof.
  assert (Hperm :
            Permutation
              (Part.current_prices today self histories)
              (filter (fun h => pk_eqb (Some (PriceHistory.part h)) (Part.pk self)
                                && PriceHistory.is_current today h)
                      histories)).
  { unfold Part.current_prices, Part.price_histories, PriceHistory.objects_all.
    eapply perm_trans; [apply order_by_perm |].
    rewrite !filter_filter.
    eapply perm_trans; [apply filter_perm, order_by_perm |].
    erewrite filter_ext; [apply Permutation_refl |].
    intros h. cbv beta. rewrite <- current_filters_is_current.
    rewrite !andb_assoc. reflexivity. }
  split; [| split; [exact Hperm | split]].
  - intros h. split.
    + intros Hin. apply (Permutation_in _ Hperm) in Hin.
      apply filter_In in Hin. destruct Hin as [Hin Hb].
      apply andb_true_iff in Hb. destruct Hb as [Hpk Hcur].
      apply pk_eqb_eq in Hpk. apply is_current_spec in Hcur.
      unfold active_and_started. intuition congruence.
    + intros [Hin [[Hpk [Hact Hs]] He]].
      apply (Permutation_in _ (Permutation_sym Hperm)).
      apply filter_In. split; [exact Hin |].
      apply andb_true_iff. split.
      * apply pk_eqb_eq. congruence.
      * apply is_current_spec. auto.
  - apply order_by_start_date_descending.
  - unfold Part.has_multiple_active_prices, count.
    rewrite Z.gtb_ltb, Z.ltb_lt. lia.
Qed.

Lemma current_prices_exact_witness :
  In row_2024_open (Part.current_prices 739007 part_P [row_2024_open; row_2024_h1]).
Proof.
  apply (proj1 (current_prices_exact 739007 part_P [row_2024_open; row_2024_h1])).
  split; [left; reflexivity |]. split.
  - unfold active_and_started; simpl. repeat split.
    exists 738886. split; [reflexivity | lia].
  - left. reflexivity.
Defined.

(** Two rows of part 1 are current on 2024-05-01: both are returned, and the
    part is flagged. *)
Example has_multiple_active_prices_flags :
  Part.current_prices 739007 part_P [row_2024_h1; row_2024_open]
  = [row_2024_h1; row_2024_open]
  /\ Part.has_multiple_active_prices 739007 part_P [row_2024_h1; row_2024_open] = true
  /\ Part.has_multiple_active_prices 739007 part_P [row_2024_open] = false.
Proof. split; [| split]; reflexivity. Qed.

Example current_price_scenario :
  Part.current_price 739007 part_P [row_2024_open] = Some 10000.
Proof. reflexivity. Qed.

(** ** Saving a price history *)

Lemma next_pk_above (pks : list (option Z)) (k : Z) :
  In (Some k) pks -> k < next_pk pks.
Proof.
  unfold next_pk.
  set (top := fold_right
                (fun p m => match p with Some k => Z.max k m | None => m end) 0).
  induction pks as [| p pks IH]; [intros [] |].
  change (top (p :: pks))
    with (match p with Some k => Z.max k (top pks) | None => top pks end).
  intros [-> | Hin].
  - lia.
  - specialize (IH Hin). destruct p; lia.
Qed.

(** [Model.save] stores the instance it returns, and no other row under its
    key; only the key of the instance may change. *)
Lemma Model_save_persists (self : PriceHistory.t) (objects : list PriceHistory.t) :
  forall saved objects',
    PriceHistory.Model_save self objects = (saved, objects') ->
    In saved objects'
    /\ (forall r, In r objects' ->
                  PriceHistory.pk r = PriceHistory.pk saved -> r = saved)
    /\ PriceHistory.is_active saved = PriceHistory.is_active self
    /\ PriceHistory.end_date saved = PriceHistory.end_date self
    /\ PriceHistory.start_date saved = PriceHistory.start_date self.
Proof.
  intros saved objects'. unfold PriceHistory.Model_save.
  destruct (PriceHistory.pk self) as [k |] eqn:Hpk.
  - destruct (existsb _ objects) eqn:Hex; intros H; injection H as <- <-.
    + apply existsb_exists in Hex. destruct Hex as [r0 [Hin0 Hr0]].
      repeat split.
      * apply in_map_iff. exists r0. rewrite Hr0. auto.
      * intros r Hr Hk. apply in_map_iff in Hr. destruct Hr as [x [Hx _]].
        destruct (pk_eqb (PriceHistory.pk x) (Some k)) eqn:Hxk; [congruence |].
        apply pk_eqb_neq in Hxk. congruence.
    + repeat split.
      * apply in_or_app. right. left. reflexivity.
      * intros r Hr Hk. apply in_app_or in Hr. destruct Hr as [Hr | [<- | []]];
          [| reflexivity].
        exfalso. assert (Hn : existsb (fun r => pk_eqb (PriceHistory.pk r) (Some k))
                                      objects = true).
        { apply existsb_exists. exists r. split; [exact Hr |].
          apply pk_eqb_eq. congruence. }
        congruence.
  - intros H. injection H as <- <-. repeat split.
    + apply in_or_app. right. left. reflexivity.
    + intros r Hr Hk. apply in_app_or in Hr. destruct Hr as [Hr | [<- | []]];
        [| reflexivity].
      exfalso. simpl in Hk.
      assert (Hlt : next_pk (map PriceHistory.pk objects)
                    < next_pk (map PriceHistory.pk objects)); [| lia].
      apply next_pk_above. rewrite <- Hk. apply in_map, Hr.
Qed.

(** (C4) Saving a row whose end date is present and before [today] persists
    it with [is_active = false], whatever active flag it carried into
    [save]; the row stored under its key is that inactive row. The forcing
    belongs to [save] itself, so it happens again on every later save, also
    when the flag was set again in between, and on a PATCH that sends
    [is_active = true]. *)
Theorem save_deactivates_expired :
  (forall (today : date) (self : PriceHistory.t) (objects : list PriceHistory.t)
          (e : date) saved objects',
      PriceHistory.end_date self = Some e ->
      e < today ->
      PriceHistory.save today self objects = (saved, objects') ->
      PriceHistory.is_active saved = false
      /\ In saved objects'
      /\ (forall r, In r objects' ->
                    PriceHistory.pk r = PriceHistory.pk saved ->
                    PriceHistory.is_active r = false)
      /\ forall today' saved' objects'',
          today <= today' ->
          PriceHistory.save today' (PriceHistory.set_is_active true saved) objects'
          = (saved', objects'') ->
          PriceHistory.is_active saved' = false)
  /\ (forall (today : date) (pk : Z) data (objects : list PriceHistory.t)
             (e : date) saved objects',
         PriceHistoryDetailView.partial_update today pk data objects
         = ret (saved, objects') ->
         PriceHistory.end_date saved = Some e ->
         e < today ->
         PriceHistory.is_active saved = false /\ In saved objects').
Proof.
  assert (Hsave :
            forall today self objects e saved objects',
              PriceHistory.end_date self = Some e ->
              e < today ->
              PriceHistory.save today self objects = (saved, objects') ->
              PriceHistory.is_active saved = false
              /\ In saved objects'
              /\ (forall r, In r objects' ->
                            PriceHistory.pk r = PriceHistory.pk saved -> r = saved)
              /\ PriceHistory.end_date saved = Some e).
  { intros today self objects e saved objects' He Hlt Hs.
    unfold PriceHistory.save in Hs. rewrite He in Hs.
    apply Z.ltb_lt in Hlt. rewrite Hlt in Hs.
    apply Model_save_persists in Hs.
    destruct Hs as [Hin [Huniq [Hact [Hend _]]]].
    simpl in Hact, Hend. rewrite He in Hend. auto. }
  split.
  - intros today self objects e saved objects' He Hlt Hs.
    destruct (Hsave _ _ _ _ _ _ He Hlt Hs) as [Hact [Hin [Huniq Hend]]].
    repeat split; try assumption.
    + intros r Hr Hk. rewrite (Huniq r Hr Hk). exact Hact.
    + intros today' saved' objects'' Hle Hs'.
      eapply (Hsave today' (PriceHistory.set_is_active true saved));
        [| | exact Hs']; [exact Hend | lia].
  - intros today pk data objects e saved objects' Hup He Hlt.
    unfold PriceHistoryDetailView.partial_update in Hup.
    destruct (PriceHistoryDetailView.get_object pk objects) as [err | instance];
      [discriminate |].
    simpl in Hup.
    destruct (PriceHistoryCreateUpdateSerializer.is_valid data) as [err | a];
      [discriminate |].
    simpl in Hup. unfold ret in Hup. injection Hup as Hup.
    unfold PriceHistoryCreateUpdateSerializer.update in Hup.
    pose proof Hup as Hup'.
    unfold PriceHistory.save in Hup'.
    match type of Hup' with
    | PriceHistory.Model_save ?x _ = _ =>
        apply Model_save_persists in Hup'; destruct Hup' as [_ [_ [_ [Hend _]]]]
    end.
    assert (Hend' : PriceHistory.end_date
                      (PriceHistoryCreateUpdateSerializer.setattrs instance a)
                    = Some e).
    { rewrite <- He, Hend.
      destruct (PriceHistory.end_date
                  (PriceHistoryCreateUpdateSerializer.setattrs instance a))
        as [x |] eqn:Hx; [| symmetry; exact Hx].
      destruct (x <? today); simpl; symmetry; exact Hx. }
    destruct (Hsave _ _ _ _ _ _ Hend' Hlt Hup) as [Hact [Hin _]].
    auto.
Qed.

Lemma save_deactivates_expired_witness :
  PriceHistory.is_active
    (fst (PriceHistory.save 739068 row_2024_h1 [row_2024_h1])) = false.
Proof.
  apply (proj1 (proj1 save_deactivates_expired
                  739068 row_2024_h1 [row_2024_h1] 739067
                  (fst (PriceHistory.save 739068 row_2024_h1 [row_2024_h1]))
                  (snd (PriceHistory.save 739068 row_2024_h1 [row_2024_h1]))
                  eq_refl ltac:(lia) eq_refl)).
Defined.

(** ** Range order at write time *)

(** [clean] refuses a reversed range on the instance it is given. *)
Lemma clean_rejects_reversed_range
      (objects : list PriceHistory.t) (self : PriceHistory.t) (s e : date) :
  PriceHistory.start_date self = Some s ->
  PriceHistory.end_date self = Some e ->
  e < s ->
  PriceHistory.clean objects self = raise (ValidationError EndDateBeforeStart).
Proof.
  intros Hs He Hlt. unfold PriceHistory.clean. rewrite Hs, He.
  apply Z.ltb_lt in Hlt. rewrite Hlt. reflexivity.
Qed.

(** The serializer refuses a reversed range when the request carries both
    dates. *)
Lemma validate_rejects_reversed_range
      (a : PriceHistoryCreateUpdateSerializer.attrs) (s e : date) :
  PriceHistoryCreateUpdateSerializer.start_date a = Some s ->
  PriceHistoryCreateUpdateSerializer.end_date a = Some (Some e) ->
  e < s ->
  PriceHistoryCreateUpdateSerializer.validate a
  = raise (ValidationError EndDateBeforeStart).
Proof.
  intros Hs He Hlt.
  unfold PriceHistoryCreateUpdateSerializer.validate,
    PriceHistoryCreateUpdateSerializer.get_end_date.
  rewrite Hs, He. apply Z.ltb_lt in Hlt. rewrite Hlt. reflexivity.
Qed.

(** (C5) A PATCH that carries only an end date is not compared with the
    stored start date: on 2023-12-01, the row 2 that starts on 2024-01-01
    accepts [end_date = 2023-12-31]. The request succeeds and the table then
    holds a row whose end date is before its start date — a row that
    [clean] refuses. *)
Theorem partial_update_stores_reversed_range :
  exists saved,
    PriceHistoryDetailView.partial_update 738855 2 patch_end_date [row_2024_open]
    = ret (saved, [saved])
    /\ PriceHistory.start_date saved = Some 738886
    /\ PriceHistory.end_date saved = Some 738885
    /\ ~ range_ordered saved
    /\ PriceHistory.clean [row_2024_open] saved
       = raise (ValidationError EndDateBeforeStart).
Proof.
  eexists. split; [reflexivity |]. repeat split.
  intros H. specialize (H 738886 738885 eq_refl eq_refl). lia.
Qed.

(** ** Deleting a part *)

Lemma get_object_pk (pk : Z) (objects : list Part.t) (instance : Part.t) :
  PartDetailView.get_object pk objects = ret instance ->
  In instance objects /\ Part.pk instance = Some pk.
Proof.
  unfold PartDetailView.get_object.
  destruct (find _ objects) as [r |] eqn:Hf; [| discriminate].
  intros H. injection H as <-. apply find_some in Hf.
  rewrite pk_eqb_eq in Hf. exact Hf.
Qed.

Lemma exists_true {A : Type} (l : list A) : exists_ l = true <-> exists x, In x l.
Proof.
  destruct l as [| x l]; simpl; split; intros H; try discriminate; try reflexivity.
  - destruct H as [x []].
  - exists x. left. reflexivity.
Qed.

(** (C7) For a part of the table: [destroy] answers 403 and leaves the store
    as it is when the user is not an administrator; for an administrator it
    answers 400 (price histories exist) and leaves the store as it is when
    a price history, active or not, points at the part; and it answers 204
    exactly when none does, the part then being gone from the table. *)
Theorem destroy_part_rules
        (user : User.t) (pk : Z) (s : Store) (instance : Part.t) :
  PartDetailView.get_object pk (parts s) = ret instance ->
  (User.is_administrator user = false ->
   PartDetailView.destroy user pk s = (HTTP_403_FORBIDDEN, s))
  /\ (User.is_administrator user = true ->
      (exists h, In h (price_histories s) /\ PriceHistory.part h = pk) ->
      PartDetailView.destroy user pk s = (HTTP_400_BAD_REQUEST, s))
  /\ (User.is_administrator user = true ->
      (forall h, In h (price_histories s) -> PriceHistory.part h <> pk) ->
      PartDetailView.destroy user pk s
      = (HTTP_204_NO_CONTENT, PartDetailView.perform_destroy instance s)
      /\ forall r, In r (parts (PartDetailView.perform_destroy instance s)) ->
                   Part.pk r <> Some pk)
  /\ (fst (PartDetailView.destroy user pk s) = HTTP_204_NO_CONTENT ->
      User.is_administrator user = true
      /\ forall h, In h (price_histories s) -> PriceHistory.part h <> pk).
Proof.
  intros Hget. pose proof (get_object_pk _ _ _ Hget) as [Hin Hpk].
  assert (Hdep : exists_ (Part.price_histories instance (price_histories s)) = true
                 <-> exists h, In h (price_histories s) /\ PriceHistory.part h = pk).
  { rewrite exists_true. split.
    - intros [h Hh]. apply price_histories_In in Hh. exists h.
      split; [tauto |]. destruct Hh as [_ Hh]. congruence.
    - intros [h [Hh Hp]]. exists h. apply price_histories_In.
      split; [exact Hh | congruence]. }
  unfold PartDetailView.destroy. rewrite Hget.
  split; [| split; [| split]].
  - intros ->. reflexivity.
  - intros -> Hex. simpl. apply Hdep in Hex. rewrite Hex. reflexivity.
  - intros -> Hnone. simpl.
    destruct (exists_ (Part.price_histories instance (price_histories s))) eqn:Hex.
    + destruct (proj1 Hdep eq_refl) as [h [Hh Hp]]. exfalso. exact (Hnone h Hh Hp).
    + split; [reflexivity |].
      intros r Hr. simpl in Hr. unfold exclude in Hr.
      apply filter_In in Hr. destruct Hr as [_ Hr].
      apply negb_true_iff, pk_eqb_neq in Hr. congruence.
  - destruct (User.is_administrator user); simpl; [| discriminate].
    destruct (exists_ (Part.price_histories instance (price_histories s))) eqn:Hex;
      simpl; [discriminate |].
    intros _. split; [reflexivity |].
    intros h Hh Hp.
    assert (Ht : false = true) by (apply Hdep; eauto).
    discriminate.
Qed.

Lemma destroy_part_rules_witness :
  PartDetailView.destroy (User.mk true false false) 1
    (mkStore [part_P] [PriceHistory.set_is_active false row_2024_h1])
  = (HTTP_400_BAD_REQUEST,
     mkStore [part_P] [PriceHistory.set_is_active false row_2024_h1]).
Proof.
  apply (proj1 (proj2 (destroy_part_rules
                         (User.mk true false false) 1
                         (mkStore [part_P]
                                  [PriceHistory.set_is_active false row_2024_h1])
                         part_P eq_refl))).
  - reflexivity.
  - exists (PriceHistory.set_is_active false row_2024_h1).
    split; [left; reflexivity | reflexivity].
Defined.

Example destroy_part_scenarios :
  PartDetailView.destroy (User.mk false false false) 1 (mkStore [part_P] [])
  = (HTTP_403_FORBIDDEN, mkStore [part_P] [])
  /\ PartDetailView.destroy (User.mk true false false) 1 (mkStore [part_P] [])
     = (HTTP_204_NO_CONTENT, mkStore [] [])
  /\ PartDetailView.destroy (User.mk true false false) 1
       (mkStore [part_P] [row_2024_h1])
     = (HTTP_400_BAD_REQUEST, mkStore [part_P] [row_2024_h1]).
Proof. split; [| split]; reflexivity. Qed.

(** ** The uniqueness triple of parts *)

Lemma same_key_eq (a b : Part.t) : Part.same_key a b = true <-> key_of a = key_of b.
Proof.
  unfold Part.same_key, key_of.
  rewrite !andb_true_iff, !Z.eqb_eq, String.eqb_eq.
  split.
  - intros [[-> ->] ->]. reflexivity.
  - intros H. inversion H. auto.
Qed.

Lemma exists_false {A : Type} (l : list A) : exists_ l = false <-> forall x, ~ In x l.
Proof.
  destruct l as [| x l]; simpl; split; intros H; try discriminate; try reflexivity.
  - intros x [].
  - exfalso. apply (H x). left. reflexivity.
Qed.

Lemma filter_key_In (p b : option Z) (n : option string)
      (objects : list Part.t) (r : Part.t) :
  In r (Part.filter_key p b n objects) <->
  In r objects /\ p = Some (Part.product r) /\ b = Some (Part.supplier_branch r)
  /\ n = Some (Part.part_number r).
Proof.
  unfold Part.filter_key, column_is. rewrite filter_In, !andb_true_iff.
  destruct p as [p |], b as [b |], n as [n |];
    try rewrite !Z.eqb_eq; try rewrite String.eqb_eq;
    intuition (try discriminate; congruence).
Qed.

(** The rows [Part.clean] and the serializer's [validate] look for. *)
Lemma filter_key_excluding (p b : option Z) (n : option string)
      (objects : list Part.t) (pk : option Z) (r : Part.t) :
  In r (exclude (fun r => pk_eqb (Part.pk r) pk) (Part.filter_key p b n objects)) <->
  In r objects /\ p = Some (Part.product r) /\ b = Some (Part.supplier_branch r)
  /\ n = Some (Part.part_number r) /\ Part.pk r <> pk.
Proof.
  unfold exclude. rewrite filter_In, filter_key_In, negb_true_iff, pk_eqb_neq. tauto.
Qed.

(** Case split on the [.exists()] test in the goal. *)
Ltac case_exists H :=
  match goal with
  | |- context [exists_ ?l] => destruct (exists_ l) eqn:H
  end.

Lemma Part_clean_spec (objects : list Part.t) (self : Part.t) :
  ((exists r, In r objects /\ key_of r = key_of self
              /\ (truthy_pk (Part.pk self) = true -> Part.pk r <> Part.pk self)) ->
   Part.clean objects self = raise (ValidationError DuplicatePartNumber))
  /\ (~ (exists r, In r objects /\ key_of r = key_of self
                   /\ (truthy_pk (Part.pk self) = true -> Part.pk r <> Part.pk self)) ->
      Part.clean objects self = ret tt).
Proof.
  unfold Part.clean, key_of.
  destruct (truthy_pk (Part.pk self)).
  - case_exists Hex.
    + split; [reflexivity |]. intros Hno. exfalso. apply Hno.
      apply exists_true in Hex. destruct Hex as [r Hr].
      apply filter_key_excluding in Hr. exists r. intuition congruence.
    + split; [| reflexivity]. intros [r [Hin [Hk Hpk]]]. exfalso.
      apply (proj1 (exists_false _) Hex r). apply filter_key_excluding.
      inversion Hk. intuition congruence.
  - case_exists Hex.
    + split; [reflexivity |]. intros Hno. exfalso. apply Hno.
      apply exists_true in Hex. destruct Hex as [r Hr].
      apply filter_key_In in Hr. exists r. intuition congruence.
    + split; [| reflexivity]. intros [r [Hin [Hk Hpk]]]. exfalso.
      apply (proj1 (exists_false _) Hex r). apply filter_key_In.
      inversion Hk. intuition congruence.
Qed.

(** The row of the table that answers the three keys of the request. *)
Lemma validate_cases (objects : list Part.t) (instance : option Part.t)
      (a : PartCreateUpdateSerializer.attrs) :
  (PartCreateUpdateSerializer.validate objects instance a
   = raise (ValidationError DuplicatePartNumber)
   /\ exists r,
       In r objects
       /\ PartCreateUpdateSerializer.product a = Some (Part.product r)
       /\ PartCreateUpdateSerializer.supplier_branch a = Some (Part.supplier_branch r)
       /\ PartCreateUpdateSerializer.part_number a = Some (Part.part_number r)
       /\ forall i, instance = Some i -> Part.pk r <> Part.pk i)
  \/ (PartCreateUpdateSerializer.validate objects instance a = ret a
      /\ forall r,
          In r objects ->
          PartCreateUpdateSerializer.product a = Some (Part.product r) ->
          PartCreateUpdateSerializer.supplier_branch a = Some (Part.supplier_branch r) ->
          PartCreateUpdateSerializer.part_number a = Some (Part.part_number r) ->
          exists i, instance = Some i /\ Part.pk r = Part.pk i).
Proof.
  unfold PartCreateUpdateSerializer.validate.
  destruct instance as [i |].
  - case_exists Hex.
    + left. split; [reflexivity |].
      apply exists_true in Hex. destruct Hex as [r Hr].
      apply filter_key_excluding in Hr. exists r.
      repeat split; try tauto. intros i' Hi'. injection Hi' as <-. tauto.
    + right. split; [reflexivity |]. intros r Hin Hp Hb Hn.
      exists i. split; [reflexivity |].
      destruct (pk_eqb (Part.pk r) (Part.pk i)) eqn:Hpk;
        [apply pk_eqb_eq; exact Hpk |].
      exfalso. apply (proj1 (exists_false _) Hex r). apply filter_key_excluding.
      apply pk_eqb_neq in Hpk. tauto.
  - case_exists Hex.
    + left. split; [reflexivity |].
      apply exists_true in Hex. destruct Hex as [r Hr].
      apply filter_key_In in Hr. exists r.
      repeat split; try tauto. intros i' Hi'. discriminate.
    + right. split; [reflexivity |]. intros r Hin Hp Hb Hn.
      exfalso. apply (proj1 (exists_false _) Hex r). apply filter_key_In. tauto.
Qed.

Lemma is_valid_validate (partial : bool) (objects : list Part.t)
      (instance : option Part.t) (data : PartCreateUpdateSerializer.attrs) :
  fields_valid data ->
  (partial = false -> PartCreateUpdateSerializer.required data = ret tt) ->
  PartCreateUpdateSerializer.is_valid partial objects instance data
  = PartCreateUpdateSerializer.validate objects instance data.
Proof.
  intros Hf Hreq. unfold PartCreateUpdateSerializer.is_valid.
  assert (H1 : (if partial then ret tt else PartCreateUpdateSerializer.required data)
               = ret tt)
    by (destruct partial; [reflexivity | apply Hreq; reflexivity]).
  rewrite H1. simpl.
  destruct (PartCreateUpdateSerializer.minimum_order_quantity data) as [v |] eqn:Hv;
    [| reflexivity].
  unfold PartCreateUpdateSerializer.validate_minimum_order_quantity.
  specialize (Hf v Hv).
  destruct (Z.ltb_spec v 1); [lia | reflexivity].
Qed.

Lemma existsb_false_forall {A : Type} (f : A -> bool) (l : list A) :
  existsb f l = false <-> forall x, In x l -> f x = false.
Proof.
  induction l as [| y l IH]; simpl.
  - split; [intros _ x [] | reflexivity].
  - rewrite orb_false_iff, IH. split.
    + intros [Hy Hl] x [<- | Hx]; auto.
    + intros H. split; [apply H; left; reflexivity | intros x Hx; apply H; right; exact Hx].
Qed.

(** The unique index refuses the write when another row holds the key. *)
Lemma Part_Model_save_conflict (self : Part.t) (objects : list Part.t) :
  (exists r, In r objects /\ key_of r = key_of self /\ Part.pk r <> Part.pk self) ->
  Part.Model_save self objects = raise UniqueTogetherError.
Proof.
  intros [r [Hin [Hk Hpk]]]. unfold Part.Model_save.
  destruct (Part.pk self) as [k |].
  - assert (Hex : existsb (fun r => Part.same_key r self
                                    && negb (pk_eqb (Part.pk r) (Some k)))
                          objects = true).
    { apply existsb_exists. exists r. split; [exact Hin |].
      apply andb_true_iff. split; [apply same_key_eq, Hk |].
      apply negb_true_iff, pk_eqb_neq, Hpk. }
    rewrite Hex. reflexivity.
  - assert (Hex : existsb (fun r => Part.same_key r self) objects = true).
    { apply existsb_exists. exists r. split; [exact Hin | apply same_key_eq, Hk]. }
    rewrite Hex. reflexivity.
Qed.

(** When no other row holds the key, the write goes through. *)
Lemma Part_Model_save_ok (self : Part.t) (objects : list Part.t) :
  (forall r, In r objects -> key_of r = key_of self -> Part.pk r = Part.pk self) ->
  (Part.pk self = None -> forall r, In r objects -> key_of r <> key_of self) ->
  exists saved objects', Part.Model_save self objects = ret (saved, objects').
Proof.
  intros Hown Hnew. unfold Part.Model_save.
  destruct (Part.pk self) as [k |] eqn:Hpk.
  - assert (Hex : existsb (fun r => Part.same_key r self
                                    && negb (pk_eqb (Part.pk r) (Some k)))
                          objects = false).
    { apply existsb_false_forall. intros r Hr.
      destruct (Part.same_key r self) eqn:Hk; [| reflexivity].
      apply same_key_eq in Hk. simpl.
      apply negb_false_iff, pk_eqb_eq. auto. }
    rewrite Hex.
    destruct (existsb (fun r => pk_eqb (Part.pk r) (Some k)) objects);
      do 2 eexists; reflexivity.
  - assert (Hex : existsb (fun r => Part.same_key r self) objects = false).
    { apply existsb_false_forall. intros r Hr.
      destruct (Part.same_key r self) eqn:Hk; [| reflexivity].
      apply same_key_eq in Hk. exfalso. exact (Hnew eq_refl r Hr Hk). }
    rewrite Hex. do 2 eexists. reflexivity.
Qed.

Lemma NoDup_snoc {A : Type} (l : list A) (x : A) :
  NoDup l -> ~ In x l -> NoDup (l ++ [x]).
Proof.
  intros Hl Hx. apply NoDup_app; [exact Hl | repeat constructor; intros [] |].
  intros a Ha [<- | []]. exact (Hx Ha).
Qed.

(** Overwriting the row under key [k] keeps the triples distinct when every
    row that shares the new triple is the row under [k]. *)
Lemma overwrite_keeps_keys (k : Z) (self : Part.t) (objects : list Part.t) :
  NoDup (map Part.pk objects) ->
  NoDup (map key_of objects) ->
  (forall r, In r objects -> key_of r = key_of self -> Part.pk r = Some k) ->
  NoDup (map key_of
           (map (fun r => if pk_eqb (Part.pk r) (Some k) then self else r) objects)).
Proof.
  induction objects as [| x l IH]; simpl; intros Hpks Hkeys Hown; [constructor |].
  apply NoDup_cons_iff in Hpks. destruct Hpks as [Hx Hpks].
  apply NoDup_cons_iff in Hkeys. destruct Hkeys as [Hkx Hkeys].
  destruct (pk_eqb (Part.pk x) (Some k)) eqn:Hxk.
  - apply pk_eqb_eq in Hxk.
    assert (Hid : map (fun r => if pk_eqb (Part.pk r) (Some k) then self else r) l = l).
    { rewrite <- (map_id l) at 2. apply map_ext_in. intros r Hr.
      destruct (pk_eqb (Part.pk r) (Some k)) eqn:Hrk; [| reflexivity].
      apply pk_eqb_eq in Hrk. exfalso. apply Hx. rewrite Hxk, <- Hrk.
      apply in_map, Hr. }
    rewrite Hid. constructor; [| exact Hkeys].
    intros Hin. apply in_map_iff in Hin. destruct Hin as [r [Hk Hr]].
    apply Hx. rewrite Hxk, <- (Hown r (or_intror Hr) Hk). apply in_map, Hr.
  - apply pk_eqb_neq in Hxk. constructor.
    + intros Hin. apply in_map_iff in Hin. destruct Hin as [y [Hk Hy]].
      apply in_map_iff in Hy. destruct Hy as [r [Hy Hr]].
      destruct (pk_eqb (Part.pk r) (Some k)); subst y.
      * apply Hxk. apply Hown; [left; reflexivity | congruence].
      * apply Hkx. rewrite <- Hk. apply in_map, Hr.
    + apply IH; [exact Hpks | exact Hkeys |].
      intros r Hr. apply Hown. right. exact Hr.
Qed.

(** A write that goes through leaves the table well keyed. *)
Lemma Part_Model_save_well_keyed (self : Part.t) (objects : list Part.t)
      (saved : Part.t) (objects' : list Part.t) :
  well_keyed objects ->
  Part.Model_save self objects = ret (saved, objects') ->
  well_keyed objects'.
Proof.
  intros [Hpks Hkeys]. unfold Part.Model_save, well_keyed.
  destruct (Part.pk self) as [k |] eqn:Hpk.
  - destruct (existsb (fun r => Part.same_key r self
                                && negb (pk_eqb (Part.pk r) (Some k))) objects)
      eqn:Hconf; [discriminate |].
    assert (Hown : forall r, In r objects -> key_of r = key_of self ->
                             Part.pk r = Some k).
    { intros r Hr Hk.
      pose proof (proj1 (existsb_false_forall _ _) Hconf r Hr) as H.
      simpl in H. rewrite (proj2 (same_key_eq r self) Hk) in H. simpl in H.
      apply negb_false_iff, pk_eqb_eq in H. exact H. }
    destruct (existsb (fun r => pk_eqb (Part.pk r) (Some k)) objects) eqn:Hex;
      intros H; injection H as <- <-.
    + split; [| apply overwrite_keeps_keys; assumption].
      rewrite map_map.
      erewrite map_ext; [exact Hpks |].
      intros r. simpl. destruct (pk_eqb (Part.pk r) (Some k)) eqn:Hrk;
        [| reflexivity].
      apply pk_eqb_eq in Hrk. congruence.
    + assert (Hfresh : forall r, In r objects -> Part.pk r <> Some k).
      { intros r Hr. apply pk_eqb_neq.
        exact (proj1 (existsb_false_forall _ _) Hex r Hr). }
      rewrite !map_app. simpl. split; apply NoDup_snoc; try assumption.
      * rewrite Hpk. intros Hin. apply in_map_iff in Hin.
        destruct Hin as [r [Hk Hr]]. exact (Hfresh r Hr Hk).
      * intros Hin. apply in_map_iff in Hin. destruct Hin as [r [Hk Hr]].
        exact (Hfresh r Hr (Hown r Hr Hk)).
  - destruct (existsb (fun r => Part.same_key r self) objects) eqn:Hconf;
      [discriminate |].
    intros H. injection H as <- <-.
    rewrite !map_app. simpl. split; apply NoDup_snoc; try assumption.
    + intros Hin. apply next_pk_above in Hin. lia.
    + intros Hin. apply in_map_iff in Hin. destruct Hin as [r [Hk Hr]].
      pose proof (proj1 (existsb_false_forall _ _) Hconf r Hr) as H.
      simpl in H. rewrite (proj2 (same_key_eq r self)) in H; [discriminate |].
      exact Hk.
Qed.

Lemma setattrs_key (instance r : Part.t) (a : PartCreateUpdateSerializer.attrs) :
  PartCreateUpdateSerializer.product a = Some (Part.product r) ->
  PartCreateUpdateSerializer.supplier_branch a = Some (Part.supplier_branch r) ->
  PartCreateUpdateSerializer.part_number a = Some (Part.part_number r) ->
  key_of (PartCreateUpdateSerializer.setattrs instance a) = key_of r.
Proof.
  intros Hp Hb Hn. unfold key_of, PartCreateUpdateSerializer.setattrs. simpl.
  rewrite Hp, Hb, Hn. reflexivity.
Qed.

(** (C8) The triple (product, supplier branch, part number) is kept unique.
    [Part.clean] and the serializer's [validate] raise the duplicate error
    when another part holds the triple they are given, the row under
    validation left out; creating a part fails with a duplicate-key error
    when a part already holds the triple of the request; updating a part,
    fully or partially, fails with a duplicate-key error when another part
    holds the triple the row would get, and goes through when only the row
    itself holds it; and every create or update that succeeds leaves the
    table with distinct triples. *)
Theorem part_key_unique :
  (forall objects self,
      ((exists r, In r objects /\ key_of r = key_of self
                  /\ (truthy_pk (Part.pk self) = true -> Part.pk r <> Part.pk self)) ->
       Part.clean objects self = raise (ValidationError DuplicatePartNumber))
      /\ (~ (exists r, In r objects /\ key_of r = key_of self
                       /\ (truthy_pk (Part.pk self) = true ->
                           Part.pk r <> Part.pk self)) ->
          Part.clean objects self = ret tt))
  /\ (forall objects instance a r,
         In r objects ->
         PartCreateUpdateSerializer.product a = Some (Part.product r) ->
         PartCreateUpdateSerializer.supplier_branch a = Some (Part.supplier_branch r) ->
         PartCreateUpdateSerializer.part_number a = Some (Part.part_number r) ->
         (forall i, instance = Some i -> Part.pk r <> Part.pk i) ->
         PartCreateUpdateSerializer.validate objects instance a
         = raise (ValidationError DuplicatePartNumber))
  /\ (forall data objects r,
         PartCreateUpdateSerializer.required data = ret tt ->
         fields_valid data ->
         In r objects ->
         PartCreateUpdateSerializer.product data = Some (Part.product r) ->
         PartCreateUpdateSerializer.supplier_branch data
         = Some (Part.supplier_branch r) ->
         PartCreateUpdateSerializer.part_number data = Some (Part.part_number r) ->
         exists e,
           PartListCreateView.create data objects = raise e /\ DuplicateKeyError e)
  /\ (forall partial pk data objects instance r,
         PartDetailView.get_object pk objects = ret instance ->
         (partial = false -> PartCreateUpdateSerializer.required data = ret tt) ->
         fields_valid data ->
         In r objects ->
         Part.pk r <> Some pk ->
         key_of r = key_of (PartCreateUpdateSerializer.setattrs instance data) ->
         exists e,
           PartDetailView.update partial pk data objects = raise e
           /\ DuplicateKeyError e)
  /\ (forall partial pk data objects instance,
         PartDetailView.get_object pk objects = ret instance ->
         (partial = false -> PartCreateUpdateSerializer.required data = ret tt) ->
         fields_valid data ->
         (forall r, In r objects -> Part.pk r <> Some pk ->
                    key_of r <> key_of (PartCreateUpdateSerializer.setattrs instance data)) ->
         exists saved objects',
           PartDetailView.update partial pk data objects = ret (saved, objects'))
  /\ (forall data objects saved objects',
         well_keyed objects ->
         PartListCreateView.create data objects = ret (saved, objects') ->
         well_keyed objects')
  /\ (forall partial pk data objects saved objects',
         well_keyed objects ->
         PartDetailView.update partial pk data objects = ret (saved, objects') ->
         well_keyed objects').
Proof.
  split; [| split; [| split; [| split; [| split; [| split]]]]].
  - intros objects self. apply Part_clean_spec.
  - intros objects instance a r Hin Hp Hb Hn Hpk.
    destruct (validate_cases objects instance a) as [[Heq _] | [_ Hnone]];
      [exact Heq |].
    destruct (Hnone r Hin Hp Hb Hn) as [i [Hi Hri]].
    exfalso. exact (Hpk i Hi Hri).
  - intros data objects r Hreq Hf Hin Hp Hb Hn.
    exists (ValidationError DuplicatePartNumber). split; [| left; reflexivity].
    unfold PartListCreateView.create.
    rewrite is_valid_validate by auto.
    destruct (validate_cases objects None data) as [[Heq _] | [_ Hnone]].
    + rewrite Heq. reflexivity.
    + destruct (Hnone r Hin Hp Hb Hn) as [i [Hi _]]. discriminate.
  - intros partial pk data objects instance r Hget Hreq Hf Hin Hpk Hk.
    unfold PartDetailView.update. rewrite Hget. simpl.
    rewrite is_valid_validate by auto.
    destruct (validate_cases objects (Some instance) data) as [[Heq _] | [Heq _]];
      rewrite Heq; simpl.
    + exists (ValidationError DuplicatePartNumber). split; [| left]; reflexivity.
    + exists UniqueTogetherError. split; [| right; reflexivity].
      unfold PartCreateUpdateSerializer.update.
      apply Part_Model_save_conflict. exists r. repeat split; try assumption.
      simpl. apply get_object_pk in Hget. destruct Hget as [_ Hi]. congruence.
  - intros partial pk data objects instance Hget Hreq Hf Hnone.
    pose proof (get_object_pk _ _ _ Hget) as [Hii Hi].
    unfold PartDetailView.update. rewrite Hget. simpl.
    rewrite is_valid_validate by auto.
    destruct (validate_cases objects (Some instance) data)
      as [[_ [r [Hin [Hp [Hb [Hn Hpk]]]]]] | [Heq _]].
    + exfalso. apply (Hnone r Hin).
      * specialize (Hpk instance eq_refl). congruence.
      * symmetry. apply setattrs_key; assumption.
    + rewrite Heq. simpl. unfold PartCreateUpdateSerializer.update.
      apply Part_Model_save_ok.
      * intros r Hin Hk. simpl. rewrite Hi.
        destruct (pk_eqb (Part.pk r) (Some pk)) eqn:Hrk;
          [apply pk_eqb_eq; exact Hrk |].
        apply pk_eqb_neq in Hrk. exfalso. exact (Hnone r Hin Hrk Hk).
      * simpl. rewrite Hi. discriminate.
  - intros data objects saved objects' Hwk.
    unfold PartListCreateView.create.
    destruct (PartCreateUpdateSerializer.is_valid false objects None data)
      as [e | a]; [discriminate |].
    simpl. unfold PartCreateUpdateSerializer.create.
    destruct (PartCreateUpdateSerializer.product a),
             (PartCreateUpdateSerializer.supplier_branch a),
             (PartCreateUpdateSerializer.part_number a),
             (PartCreateUpdateSerializer.part_name a); try discriminate.
    apply Part_Model_save_well_keyed, Hwk.
  - intros partial pk data objects saved objects' Hwk.
    unfold PartDetailView.update.
    destruct (PartDetailView.get_object pk objects) as [e | instance];
      [discriminate |].
    simpl.
    destruct (PartCreateUpdateSerializer.is_valid partial objects (Some instance) data)
      as [e | a]; [discriminate |].
    simpl. unfold PartCreateUpdateSerializer.update.
    apply Part_Model_save_well_keyed, Hwk.
Qed.

Lemma part_key_unique_witness :
  exists e,
    PartListCreateView.create post_same_key [part_P] = raise e
    /\ DuplicateKeyError e.
Proof.
  apply (proj1 (proj2 (proj2 part_key_unique)) post_same_key [part_P] part_P
               eq_refl
               ltac:(intros v H; discriminate H)
               (or_introl eq_refl) eq_refl eq_refl eq_refl).
Defined.

(** The requests of the sample data, and a PATCH that keeps the row's own
    triple. *)
Example part_requests :
  PartListCreateView.create post_same_key [part_P]
  = raise (ValidationError DuplicatePartNumber)
  /\ PartDetailView.update true 2 patch_part_number [part_P; part_Q]
     = raise UniqueTogetherError
  /\ PartDetailView.update true 1 patch_part_number [part_P; part_Q]
     = ret (part_P, [part_P; part_Q]).
Proof. split; [| split]; reflexivity. Qed.

(** A row whose end date has passed but whose flag is still set stays
    eligible for [current_price], while [current_prices] leaves it out. *)
Example current_price_ignores_end_date :
  Part.current_price 739251 part_P [row_2024_h1] = Some 10000
  /\ Part.current_prices 739251 part_P [row_2024_h1] = [].
Proof. split; reflexivity. Qed.

(** The sample candidates against the stored first-half row: the
    overlapping range is refused, the adjacent one is accepted. *)
Example clean_scenarios :
  PriceHistory.clean [row_2024_h1] candidate_2024_h2
  = raise (ValidationError (PeriodOverlaps (Some 738886) (Some 739067)))
  /\ PriceHistory.clean [row_2024_h1] candidate_2024_07_01 = ret tt.
Proof. split; reflexivity. Qed.

(** * Further properties of the purchases app *)

(** ** Derived state and adjacent ranges *)

(** (X1) The three derived states of a row on one day: a future row and an
    expired row are never current; with an ordered range a row is not both
    future and expired; and an active row with a start date is in at least
    one of the three states. *)
Theorem derived_state_exclusive (today : date) (self : PriceHistory.t) :
  (PriceHistory.is_future today self = true ->
   PriceHistory.is_current today self = false)
  /\ (PriceHistory.is_expired today self = true ->
      PriceHistory.is_current today self = false)
  /\ (range_ordered self ->
      PriceHistory.is_future today self = true ->
      PriceHistory.is_expired today self = false)
  /\ (PriceHistory.is_active self = true ->
      has_start_date self ->
      PriceHistory.is_current today self
      || PriceHistory.is_future today self
      || PriceHistory.is_expired today self = true).
Proof.
  unfold PriceHistory.is_future, PriceHistory.is_expired, PriceHistory.is_current,
    range_ordered, has_start_date.
  destruct (PriceHistory.start_date self) as [s |],
           (PriceHistory.end_date self) as [e |],
           (PriceHistory.is_active self); simpl;
    repeat split; intros; try congruence; try reflexivity;
    repeat match goal with
           | H : forall s e, Some _ = Some s -> Some _ = Some e -> _ |- _ =>
               specialize (H _ _ eq_refl eq_refl)
           | H : (_ >? _) = true |- _ => rewrite Z.gtb_ltb in H; apply Z.ltb_lt in H
           | H : (_ <? _) = true |- _ => apply Z.ltb_lt in H
           end;
    rewrite ?Z.gtb_ltb;
    repeat match goal with
           | |- context [?a <? ?b] => destruct (Z.ltb_spec a b)
           end;
    simpl; try reflexivity; try lia.
Qed.

Lemma derived_state_exclusive_witness :
  PriceHistory.is_current 739068 row_2024_h1 = false
  /\ PriceHistory.is_current 739068 candidate_2024_07_01
     || PriceHistory.is_future 739068 candidate_2024_07_01
     || PriceHistory.is_expired 739068 candidate_2024_07_01 = true.
Proof.
  split.
  - apply (proj1 (proj2 (derived_state_exclusive 739068 row_2024_h1))).
    reflexivity.
  - apply (proj2 (proj2 (proj2 (derived_state_exclusive 739068 candidate_2024_07_01)))).
    + reflexivity.
    + unfold has_start_date. simpl. discriminate.
Defined.

(** (X2) End dates are inclusive for the overlap check: after a range
    [S, E], a range that starts on E + 1 does not overlap it, in either
    direction of the test, while a range that starts on the day E does. *)
Theorem successor_range_overlap (a b : PriceHistory.t) (S E : date) :
  PriceHistory.start_date a = Some S ->
  PriceHistory.end_date a = Some E ->
  S <= E ->
  range_ordered b ->
  (PriceHistory.start_date b = Some (E + 1) ->
   PriceHistory._is_overlapping a b = ret false
   /\ PriceHistory._is_overlapping b a = ret false)
  /\ (PriceHistory.start_date b = Some E ->
      PriceHistory._is_overlapping a b = ret true
      /\ PriceHistory._is_overlapping b a = ret true).
Proof.
  intros Ha He Hle Hb. unfold range_ordered in Hb.
  unfold PriceHistory._is_overlapping. rewrite Ha, He.
  split; intros Hs; rewrite Hs in *;
    destruct (PriceHistory.end_date b) as [e' |]; simpl;
    try specialize (Hb _ _ eq_refl eq_refl);
    rewrite ?Z.geb_leb;
    repeat match goal with
           | |- context [?x <=? ?y] => destruct (Z.leb_spec x y)
           end;
    simpl; split; try reflexivity; lia.
Qed.

Lemma successor_range_overlap_witness :
  PriceHistory._is_overlapping row_2024_h1 candidate_2024_07_01 = ret false
  /\ PriceHistory._is_overlapping candidate_2024_07_01 row_2024_h1 = ret false.
Proof.
  apply (proj1 (successor_range_overlap row_2024_h1 candidate_2024_07_01
                  738886 739067 eq_refl eq_refl ltac:(lia)
                  ltac:(intros s e H1 H2; discriminate H2))).
  reflexivity.
Defined.

(** ** Listing price histories *)

Lemma expired_filter_is_expired (today : date) (h : PriceHistory.t) :
  negb (isnull (PriceHistory.end_date h))
  && match PriceHistory.end_date h with
     | Some e => e <? today
     | None => false
     end
  = PriceHistory.is_expired today h.
Proof.
  unfold PriceHistory.is_expired, isnull.
  destruct (PriceHistory.end_date h); reflexivity.
Qed.

Lemma get_queryset_current
      (today : date) (p q : option Z) (a : option string)
      (parts : list Part.t) (objects : list PriceHistory.t) :
  Permutation
    (PriceHistoryListCreateView.get_queryset
       today (PriceHistoryListCreateView.mk p q a (Some "current"%string))
       parts objects)
    (filter (PriceHistory.is_current today)
       (PriceHistoryListCreateView.get_queryset
          today (PriceHistoryListCreateView.mk p q a None) parts objects)).
Proof.
  unfold PriceHistoryListCreateView.get_queryset.
  cbn [PriceHistoryListCreateView.status].
  match goal with
  | |- context [order_by PriceHistory.Meta_before ?Q] => set (qs := Q)
  end.
  cbn. eapply perm_trans; [apply order_by_perm |].
  eapply perm_trans;
    [| apply filter_perm, Permutation_sym, order_by_perm].
  rewrite filter_filter. erewrite filter_ext; [apply Permutation_refl |].
  intros h. apply current_filters_is_current.
Qed.

(** (X3) The [status] parameter of the list view selects by the derived
    state of the model: with [current], [future] or [expired] the view
    returns the rows it returns without the parameter for which
    [is_current], [is_future] or [is_expired] holds, each as often; any
    other value, such as a different capitalisation, filters nothing. *)
Theorem status_filter_matches_derived_state
        (today : date) (p q : option Z) (a : option string)
        (parts : list Part.t) (objects : list PriceHistory.t) :
  let all :=
    PriceHistoryListCreateView.get_queryset
      today (PriceHistoryListCreateView.mk p q a None) parts objects in
  let by_status st :=
    PriceHistoryListCreateView.get_queryset
      today (PriceHistoryListCreateView.mk p q a (Some st)) parts objects in
  Permutation (by_status "current"%string) (filter (PriceHistory.is_current today) all)
  /\ Permutation (by_status "future"%string) (filter (PriceHistory.is_future today) all)
  /\ Permutation (by_status "expired"%string)
                 (filter (PriceHistory.is_expired today) all)
  /\ forall st,
      st <> "current"%string -> st <> "future"%string -> st <> "expired"%string ->
      by_status st = all.
Proof.
  cbv zeta. split; [apply get_queryset_current |].
  unfold PriceHistoryListCreateView.get_queryset.
  cbn [PriceHistoryListCreateView.status].
  match goal with
  | |- context [order_by PriceHistory.Meta_before ?Q] => set (qs := Q)
  end.
  split; [| split].
  - cbn. eapply perm_trans; [apply order_by_perm |].
    eapply perm_trans;
      [| apply filter_perm, Permutation_sym, order_by_perm].
    apply Permutation_refl.
  - cbn. eapply perm_trans; [apply order_by_perm |].
    eapply perm_trans;
      [| apply filter_perm, Permutation_sym, order_by_perm].
    erewrite filter_ext; [apply Permutation_refl |].
    intros h. apply expired_filter_is_expired.
  - intros st H1 H2 H3.
    apply String.eqb_neq in H1, H2, H3. rewrite H1, H2, H3. reflexivity.
Qed.

Lemma status_filter_matches_derived_state_witness :
  PriceHistoryListCreateView.get_queryset
    739068 (PriceHistoryListCreateView.mk None None None (Some "CURRENT"%string))
    [part_P] [row_2024_h1]
  = PriceHistoryListCreateView.get_queryset
      739068 (PriceHistoryListCreateView.mk None None None None)
      [part_P] [row_2024_h1].
Proof.
  apply (proj2 (proj2 (proj2 (status_filter_matches_derived_state
                                739068 None None None [part_P] [row_2024_h1]))));
    discriminate.
Defined.

(** Every row the list view returns passed the [is_active] parameter. *)
Lemma get_queryset_is_active
      (today : date) (p q : option Z) (s : string) (st : option string)
      (parts : list Part.t) (objects : list PriceHistory.t) (h : PriceHistory.t) :
  In h (PriceHistoryListCreateView.get_queryset
          today (PriceHistoryListCreateView.mk p q (Some s) st) parts objects) ->
  PriceHistory.is_active h = String.eqb (lower s) "true".
Proof.
  unfold PriceHistoryListCreateView.get_queryset.
  cbn [PriceHistoryListCreateView.status PriceHistoryListCreateView.is_active].
  rewrite order_by_In.
  match goal with
  | |- context [filter (fun h => Bool.eqb _ _) ?Q] => set (qs := Q)
  end.
  intros Hin.
  assert (Hqs : In h (filter (fun h => Bool.eqb (PriceHistory.is_active h)
                                                (String.eqb (lower s) "true")) qs)).
  { destruct st as [st |]; [| exact Hin].
    destruct (String.eqb st "current");
      [apply filter_In in Hin; destruct Hin as [Hin _];
       apply filter_In in Hin; tauto |].
    destruct (String.eqb st "future"); [apply filter_In in Hin; tauto |].
    destruct (String.eqb st "expired"); [apply filter_In in Hin; tauto |].
    exact Hin. }
  apply filter_In in Hqs. destruct Hqs as [_ Hb].
  apply eqb_prop in Hb. exact Hb.
Qed.

(** (X4) The [is_active] parameter counts as true only when it reads
    "true" in any capitalisation: the rows returned have exactly that flag,
    so every other text, the empty one included, lists inactive rows, and
    together with [status=current] such a text returns nothing. *)
Theorem is_active_param_only_true
        (today : date) (p q : option Z) (s : string)
        (parts : list Part.t) (objects : list PriceHistory.t) :
  (forall st h,
      In h (PriceHistoryListCreateView.get_queryset
              today (PriceHistoryListCreateView.mk p q (Some s) st) parts objects) ->
      PriceHistory.is_active h = String.eqb (lower s) "true")
  /\ (lower s <> "true"%string ->
      PriceHistoryListCreateView.get_queryset
        today (PriceHistoryListCreateView.mk p q (Some s) (Some "current"%string))
        parts objects = []).
Proof.
  split.
  - intros st h. apply get_queryset_is_active.
  - intros Hs. apply String.eqb_neq in Hs.
    destruct (PriceHistoryListCreateView.get_queryset
                today (PriceHistoryListCreateView.mk p q (Some s) (Some "current"%string))
                parts objects) as [| h r] eqn:Hq; [reflexivity |].
    exfalso.
    assert (Hin : In h (PriceHistoryListCreateView.get_queryset
                          today
                          (PriceHistoryListCreateView.mk p q (Some s)
                                                         (Some "current"%string))
                          parts objects))
      by (rewrite Hq; left; reflexivity).
    pose proof (get_queryset_is_active _ _ _ _ _ _ _ _ Hin) as Hact.
    rewrite Hs in Hact.
    apply (Permutation_in _ (get_queryset_current today p q (Some s) parts objects))
      in Hin. apply filter_In in Hin.
    destruct Hin as [_ Hcur]. apply is_current_spec in Hcur.
    destruct Hcur as [Hcur _]. congruence.
Qed.

Lemma is_active_param_only_true_witness :
  PriceHistoryListCreateView.get_queryset
    739007 (PriceHistoryListCreateView.mk None None (Some "1"%string)
                                          (Some "current"%string))
    [part_P] [row_2024_h1]
  = [].
Proof.
  apply (proj2 (is_active_param_only_true 739007 None None "1" [part_P] [row_2024_h1])).
  discriminate.
Defined.

(** ** The multiple-price flag and the current price *)

Lemma filter_one {A : Type} (f : A -> bool) (l : list A) :
  filter f l <> [] ->
  exists l1 a l2, l = l1 ++ a :: l2 /\ f a = true.
Proof.
  induction l as [| x l IH]; simpl; [congruence |].
  destruct (f x) eqn:Hx.
  - intros _. exists [], x, l. auto.
  - intros Hne. destruct (IH Hne) as [l1 [a [l2 [-> Ha]]]].
    exists (x :: l1), a, l2. auto.
Qed.

Lemma filter_two {A : Type} (f : A -> bool) (l : list A) :
  (1 < List.length (filter f l))%nat <->
  exists l1 a l2 b l3, l = l1 ++ a :: l2 ++ b :: l3 /\ f a = true /\ f b = true.
Proof.
  split.
  - induction l as [| x l IH]; simpl; [lia |].
    destruct (f x) eqn:Hx; simpl.
    + intros Hlen.
      assert (Hne : filter f l <> []) by (destruct (filter f l); simpl in *; [lia | congruence]).
      destruct (filter_one f l Hne) as [l2 [b [l3 [-> Hb]]]].
      exists [], x, l2, b, l3. auto.
    + intros Hlen. destruct (IH Hlen) as [l1 [a [l2 [b [l3 [-> [Ha Hb]]]]]]].
      exists (x :: l1), a, l2, b, l3. auto.
  - intros [l1 [a [l2 [b [l3 [-> [Ha Hb]]]]]]].
    rewrite filter_app. simpl. rewrite Ha. rewrite filter_app. simpl. rewrite Hb.
    rewrite length_app. simpl. rewrite length_app. simpl. lia.
Qed.

Lemma current_prices_perm
      (today : date) (self : Part.t) (histories : list PriceHistory.t) :
  Permutation
    (Part.current_prices today self histories)
    (filter (fun h => pk_eqb (Some (PriceHistory.part h)) (Part.pk self)
                      && PriceHistory.is_current today h)
            histories).
Proof.
  unfold Part.current_prices, Part.price_histories, PriceHistory.objects_all.
  eapply perm_trans; [apply order_by_perm |].
  rewrite !filter_filter.
  eapply perm_trans; [apply filter_perm, order_by_perm |].
  erewrite filter_ext; [apply Permutation_refl |].
  intros h. cbv beta. rewrite <- current_filters_is_current.
  rewrite !andb_assoc. reflexivity.
Qed.

(** Two rows that are current on the same day overlap. *)
Lemma current_rows_overlap (today : date) (a b : PriceHistory.t) :
  PriceHistory.is_current today a = true ->
  PriceHistory.is_current today b = true ->
  PriceHistory._is_overlapping a b = ret true.
Proof.
  intros Ha Hb.
  apply is_current_spec in Ha. destruct Ha as [_ [[sa [Hsa Hla]] Hea]].
  apply is_current_spec in Hb. destruct Hb as [_ [[sb [Hsb Hlb]] Heb]].
  apply is_overlapping_true; try congruence.
  exists sa, sb. repeat split; try assumption.
  unfold pairwise_rule.
  destruct Hea as [-> | [ea [-> Hgea]]], Heb as [-> | [eb [-> Hgeb]]];
    try exact I; lia.
Qed.

(** (X5) [has_multiple_active_prices] is raised exactly when the table holds
    two distinct rows of the part that are both current on [today]; such
    rows are two active rows of one part whose ranges overlap, the state
    that [clean] refuses to create. *)
Theorem has_multiple_active_prices_means_overlap
        (today : date) (self : Part.t) (histories : list PriceHistory.t) :
  (Part.has_multiple_active_prices today self histories = true <->
   exists l1 a l2 b l3,
     histories = l1 ++ a :: l2 ++ b :: l3
     /\ Part.pk self = Some (PriceHistory.part a)
     /\ Part.pk self = Some (PriceHistory.part b)
     /\ PriceHistory.is_current today a = true
     /\ PriceHistory.is_current today b = true)
  /\ (Part.has_multiple_active_prices today self histories = true ->
      exists l1 a l2 b l3,
        histories = l1 ++ a :: l2 ++ b :: l3
        /\ PriceHistory.part a = PriceHistory.part b
        /\ PriceHistory.is_active a = true
        /\ PriceHistory.is_active b = true
        /\ PriceHistory._is_overlapping a b = ret true).
Proof.
  assert (Hiff :
            Part.has_multiple_active_prices today self histories = true <->
            exists l1 a l2 b l3,
              histories = l1 ++ a :: l2 ++ b :: l3
              /\ Part.pk self = Some (PriceHistory.part a)
              /\ Part.pk self = Some (PriceHistory.part b)
              /\ PriceHistory.is_current today a = true
              /\ PriceHistory.is_current today b = true).
  { unfold Part.has_multiple_active_prices, count.
    rewrite Z.gtb_ltb, Z.ltb_lt.
    rewrite (Permutation_length (current_prices_perm today self histories)).
    assert (Hlen : forall n : nat, 1 < Z.of_nat n <-> (1 < n)%nat) by (intros; lia).
    rewrite Hlen, filter_two.
    split; intros [l1 [a [l2 [b [l3 [Heq H]]]]]]; exists l1, a, l2, b, l3;
      (split; [exact Heq |]).
    - destruct H as [Ha Hb].
      apply andb_true_iff in Ha, Hb. rewrite !pk_eqb_eq in *.
      destruct Ha, Hb. repeat split; congruence.
    - destruct H as [Hpa [Hpb [Ha Hb]]].
      rewrite !andb_true_iff, !pk_eqb_eq. repeat split; congruence. }
  split; [exact Hiff |].
  intros H. apply Hiff in H.
  destruct H as [l1 [a [l2 [b [l3 [Heq [Hpa [Hpb [Ha Hb]]]]]]]]].
  exists l1, a, l2, b, l3. split; [exact Heq |].
  pose proof (proj1 (is_current_spec today a) Ha) as [Haa _].
  pose proof (proj1 (is_current_spec today b) Hb) as [Hab _].
  repeat split; try assumption; [congruence |].
  apply (current_rows_overlap today); assumption.
Qed.

Lemma has_multiple_active_prices_means_overlap_witness :
  exists l1 a l2 b l3,
    [row_2024_h1; row_2024_open] = l1 ++ a :: l2 ++ b :: l3
    /\ PriceHistory.part a = PriceHistory.part b
    /\ PriceHistory.is_active a = true
    /\ PriceHistory.is_active b = true
    /\ PriceHistory._is_overlapping a b = ret true.
Proof.
  apply (proj2 (has_multiple_active_prices_means_overlap
                  739007 part_P [row_2024_h1; row_2024_open])).
  reflexivity.
Defined.

Lemma filter_all {A : Type} (f : A -> bool) (l : list A) :
  (forall x, In x l -> f x = true) -> filter f l = l.
Proof.
  induction l as [| x l IH]; simpl; intros H; [reflexivity |].
  rewrite (H x (or_introl eq_refl)), IH; [reflexivity |].
  intros y Hy. apply H. right. exact Hy.
Qed.



(** ** What a save changes *)

(** [Model.save] keeps a key the instance has, gives it one otherwise, and
    changes no row under another key. *)
Lemma Model_save_frame (self : PriceHistory.t) (objects : list PriceHistory.t)
      (saved : PriceHistory.t) (objects' : list PriceHistory.t) :
  PriceHistory.Model_save self objects = (saved, objects') ->
  (exists k, PriceHistory.pk saved = Some k)
  /\ (forall k, PriceHistory.pk self = Some k -> saved = self)
  /\ PriceHistory.set_pk None saved = PriceHistory.set_pk None self
  /\ (forall r, PriceHistory.pk r <> PriceHistory.pk saved ->
                (In r objects <-> In r objects'))
  /\ (List.length objects <= List.length objects' <= List.length objects + 1)%nat.
Proof.
  unfold PriceHistory.Model_save.
  destruct (PriceHistory.pk self) as [k |] eqn:Hpk.
  - destruct (existsb _ objects) eqn:Hex; intros H; injection H as <- <-.
    + repeat split; eauto.
      * intros Hr. apply in_map_iff. exists r.
        destruct (pk_eqb (PriceHistory.pk r) (Some k)) eqn:Hrk; [| auto].
        apply pk_eqb_eq in Hrk. congruence.
      * intros Hr. apply in_map_iff in Hr. destruct Hr as [x [Hx Hin]].
        destruct (pk_eqb (PriceHistory.pk x) (Some k)); congruence.
      * rewrite length_map. lia.
      * rewrite length_map. lia.
    + repeat split; eauto.
      * intros Hr. apply in_or_app. auto.
      * intros Hr. apply in_app_or in Hr. destruct Hr as [Hr | [<- | []]];
          [exact Hr | congruence].
      * rewrite length_app. simpl. lia.
      * rewrite length_app. simpl. lia.
  - intros H. injection H as <- <-. repeat split.
    + simpl. eauto.
    + intros k Hk. discriminate.
    + intros Hr. apply in_or_app. auto.
    + intros Hr. apply in_app_or in Hr. destruct Hr as [Hr | [<- | []]];
        [exact Hr | congruence].
    + rewrite length_app. simpl. lia.
    + rewrite length_app. simpl. lia.
Qed.

(** The forcing of [save] applied to a row. *)
Lemma save_unfold (today : date) (self : PriceHistory.t)
      (objects : list PriceHistory.t) :
  PriceHistory.save today self objects
  = PriceHistory.Model_save
      (if PriceHistory.is_expired today self
       then PriceHistory.set_is_active false self else self)
      objects.
Proof.
  unfold PriceHistory.save, PriceHistory.is_expired.
  destruct (PriceHistory.end_date self) as [e |]; reflexivity.
Qed.



(** (X8) A save touches one row: it never sets the active flag of a row
    that came in inactive, it keeps the key of a row that has one and the
    part, price and dates of any row, it leaves every row under another
    key in the table as it was, and the table grows by at most one row. *)
Theorem save_frame (today : date) (self : PriceHistory.t)
        (objects : list PriceHistory.t) (saved : PriceHistory.t)
        (objects' : list PriceHistory.t) :
  PriceHistory.save today self objects = (saved, objects') ->
  (PriceHistory.is_active saved = true -> PriceHistory.is_active self = true)
  /\ (forall k, PriceHistory.pk self = Some k -> PriceHistory.pk saved = Some k)
  /\ PriceHistory.part saved = PriceHistory.part self
  /\ PriceHistory.price saved = PriceHistory.price self
  /\ PriceHistory.start_date saved = PriceHistory.start_date self
  /\ PriceHistory.end_date saved = PriceHistory.end_date self
  /\ (forall r, PriceHistory.pk r <> PriceHistory.pk saved ->
                (In r objects <-> In r objects'))
  /\ (List.length objects <= List.length objects' <= List.length objects + 1)%nat.
Proof.
  rewrite save_unfold. intros Hs.
  pose proof (Model_save_frame _ _ _ _ Hs) as [_ [Hkey [Hsame [Hothers Hlen]]]].
  assert (Hfields :
            PriceHistory.part saved = PriceHistory.part self
            /\ PriceHistory.price saved = PriceHistory.price self
            /\ PriceHistory.start_date saved = PriceHistory.start_date self
            /\ PriceHistory.end_date saved = PriceHistory.end_date self
            /\ (PriceHistory.is_active saved = true ->
                PriceHistory.is_active self = true)).
  { destruct saved, self. unfold PriceHistory.set_pk in Hsame. simpl in *.
    destruct (PriceHistory.is_expired today _); simpl in Hsame;
      injection Hsame; intros; subst; repeat split; congruence. }
  destruct Hfields as [H1 [H2 [H3 [H4 H5]]]].
  repeat split; try assumption; try apply Hothers; try apply Hlen; try tauto.
  intros k Hk.
  rewrite (Hkey k); [destruct (PriceHistory.is_expired today self); exact Hk |].
  destruct (PriceHistory.is_expired today self); exact Hk.
Qed.

Lemma save_frame_witness :
  PriceHistory.pk (fst (PriceHistory.save 739068 row_2024_h1 [row_2024_h1])) = Some 1.
Proof.
  apply (proj1 (proj2 (save_frame 739068 row_2024_h1 [row_2024_h1]
                         (fst (PriceHistory.save 739068 row_2024_h1 [row_2024_h1]))
                         (snd (PriceHistory.save 739068 row_2024_h1 [row_2024_h1]))
                         eq_refl))).
  reflexivity.
Defined.

(** ** Deleting *)

Lemma isfile_os_remove_same (path : string) (fs : files) :
  isfile path (os_remove path fs) = false.
Proof.
  unfold isfile, os_remove. apply existsb_false_forall.
  intros p Hp. apply filter_In in Hp. destruct Hp as [_ Hp].
  apply negb_true_iff in Hp. exact Hp.
Qed.

Lemma isfile_os_remove_other (path p : string) (fs : files) :
  p <> path -> isfile p (os_remove path fs) = isfile p fs.
Proof.
  intros Hne. unfold isfile, os_remove.
  induction fs as [| x fs IH]; simpl; [reflexivity |].
  destruct (String.eqb path x) eqn:Hx; simpl.
  - apply String.eqb_eq in Hx. subst x.
    apply String.eqb_neq in Hne. rewrite Hne. exact IH.
  - rewrite IH. reflexivity.
Qed.

Lemma get_object_price_history (pk : Z) (objects : list PriceHistory.t) :
  (forall instance,
      PriceHistoryDetailView.get_object pk objects = ret instance ->
      In instance objects /\ PriceHistory.pk instance = Some pk)
  /\ ((forall r, In r objects -> PriceHistory.pk r <> Some pk) ->
      PriceHistoryDetailView.get_object pk objects = raise Http404).
Proof.
  unfold PriceHistoryDetailView.get_object.
  destruct (find _ objects) as [r |] eqn:Hf.
  - apply find_some in Hf. rewrite pk_eqb_eq in Hf. split.
    + intros instance H. injection H as <-. exact Hf.
    + intros Hnone. exfalso. destruct Hf as [Hin Hpk]. exact (Hnone r Hin Hpk).
  - split; [discriminate | reflexivity].
Qed.

(** (X9) Deleting a price history needs the administrator capability and
    nothing else: a non-administrator gets 403 and an administrator asking
    for a missing key gets 404, table and files untouched; for a stored row
    the administrator gets 204 whatever the row's dates and flag, the
    table loses exactly the rows under that key, the row's quote file no
    longer exists, and every other file is as before. *)
Theorem destroy_price_history
        (user : User.t) (pk : Z) (objects : list PriceHistory.t) (fs : files) :
  (User.is_administrator user = false ->
   PriceHistoryDetailView.destroy user pk objects fs
   = (Some HTTP_403_FORBIDDEN, objects, fs))
  /\ (User.is_administrator user = true ->
      (forall r, In r objects -> PriceHistory.pk r <> Some pk) ->
      PriceHistoryDetailView.destroy user pk objects fs
      = (Some HTTP_404_NOT_FOUND, objects, fs))
  /\ (User.is_administrator user = true ->
      forall instance,
        PriceHistoryDetailView.get_object pk objects = ret instance ->
        exists objects' fs',
          PriceHistoryDetailView.destroy user pk objects fs
          = (Some HTTP_204_NO_CONTENT, objects', fs')
          /\ (forall r, In r objects' <->
                        In r objects /\ PriceHistory.pk r <> Some pk)
          /\ (forall path, PriceHistory.quote_file_set instance = Some path ->
                           isfile path fs' = false)
          /\ (forall p, PriceHistory.quote_file_set instance <> Some p ->
                        isfile p fs' = isfile p fs)).
Proof.
  unfold PriceHistoryDetailView.destroy.
  split; [| split].
  - intros ->. reflexivity.
  - intros -> Hnone. simpl.
    rewrite (proj2 (get_object_price_history pk objects) Hnone). reflexivity.
  - intros -> instance Hget. simpl. rewrite Hget. unfold ret.
    apply (proj1 (get_object_price_history pk objects)) in Hget.
    destruct Hget as [Hin Hpk].
    unfold PriceHistory.delete, PriceHistory.Model_delete. rewrite Hpk.
    do 2 eexists. split; [reflexivity |]. split; [| split].
    + intros r. unfold exclude. rewrite filter_In, negb_true_iff, pk_eqb_neq.
      tauto.
    + intros path Hq. rewrite Hq.
      destruct (isfile path fs) eqn:Hf; [apply isfile_os_remove_same | exact Hf].
    + intros p Hq.
      destruct (PriceHistory.quote_file_set instance) as [path |]; [| reflexivity].
      destruct (isfile path fs); [| reflexivity].
      apply isfile_os_remove_other. congruence.
Qed.

Lemma destroy_price_history_witness :
  PriceHistoryDetailView.destroy (User.mk false false false) 1 [row_2024_h1] []
  = (Some HTTP_403_FORBIDDEN, [row_2024_h1], []).
Proof.
  apply (proj1 (destroy_price_history (User.mk false false false) 1 [row_2024_h1] [])).
  reflexivity.
Defined.

(** (X10) What deleting a part leaves alone: a non-administrator gets 403
    for any key, stored or not, and an administrator gets 404 for a key
    that is not stored; every answer other than 204 leaves the store as it
    was; and a 204 removes the rows of the parts table under that key and
    nothing else — no other part and no price history. *)
Theorem destroy_part_frame (user : User.t) (pk : Z) (s : Store) :
  (User.is_administrator user = false ->
   PartDetailView.destroy user pk s = (HTTP_403_FORBIDDEN, s))
  /\ (User.is_administrator user = true ->
      (forall r, In r (parts s) -> Part.pk r <> Some pk) ->
      PartDetailView.destroy user pk s = (HTTP_404_NOT_FOUND, s))
  /\ (fst (PartDetailView.destroy user pk s) <> HTTP_204_NO_CONTENT ->
      snd (PartDetailView.destroy user pk s) = s)
  /\ (fst (PartDetailView.destroy user pk s) = HTTP_204_NO_CONTENT ->
      price_histories (snd (PartDetailView.destroy user pk s)) = price_histories s
      /\ forall r, In r (parts (snd (PartDetailView.destroy user pk s))) <->
                   In r (parts s) /\ Part.pk r <> Some pk).
Proof.
  unfold PartDetailView.destroy.
  split; [| split; [| split]].
  - intros ->. reflexivity.
  - intros -> Hnone. simpl. unfold PartDetailView.get_object.
    destruct (find _ (parts s)) as [r |] eqn:Hf; [| reflexivity].
    apply find_some in Hf. rewrite pk_eqb_eq in Hf.
    exfalso. destruct Hf as [Hin Hpk]. exact (Hnone r Hin Hpk).
  - destruct (User.is_administrator user); simpl; [| reflexivity].
    destruct (PartDetailView.get_object pk (parts s)) as [e | instance];
      [reflexivity |].
    destruct (exists_ _); simpl; [reflexivity | congruence].
  - destruct (User.is_administrator user); simpl; [| discriminate].
    destruct (PartDetailView.get_object pk (parts s)) as [e | instance] eqn:Hget;
      [discriminate |].
    apply get_object_pk in Hget. destruct Hget as [Hin Hpk].
    destruct (exists_ (Part.price_histories instance (price_histories s))) eqn:Hex;
      simpl; [discriminate |].
    intros _. split.
    + unfold exclude. apply filter_all. intros h Hh.
      apply negb_true_iff.
      destruct (pk_eqb (Some (PriceHistory.part h)) (Part.pk instance)) eqn:Hm;
        [| exact Hm].
      exfalso. apply (proj1 (exists_false _) Hex h).
      apply price_histories_In. apply pk_eqb_eq in Hm. auto.
    + intros r. unfold exclude.
      rewrite filter_In, negb_true_iff, pk_eqb_neq, Hpk. tauto.
Qed.

Lemma destroy_part_frame_witness :
  PartDetailView.destroy (User.mk false false false) 9 (mkStore [part_P] [])
  = (HTTP_403_FORBIDDEN, mkStore [part_P] []).
Proof.
  apply (proj1 (destroy_part_frame (User.mk false false false) 9
                                   (mkStore [part_P] []))).
  reflexivity.
Defined.

(** ** Writing price histories through the API *)

(** What [save] returns and stores. *)
Lemma save_result (today : date) (self : PriceHistory.t)
      (objects : list PriceHistory.t) (saved : PriceHistory.t)
      (objects' : list PriceHistory.t) :
  PriceHistory.save today self objects = (saved, objects') ->
  PriceHistory.part saved = PriceHistory.part self
  /\ PriceHistory.price saved = PriceHistory.price self
  /\ PriceHistory.start_date saved = PriceHistory.start_date self
  /\ PriceHistory.end_date saved = PriceHistory.end_date self
  /\ PriceHistory.is_active saved
     = (if PriceHistory.is_expired today self then false
        else PriceHistory.is_active self)
  /\ (forall r, In r objects' -> In r objects \/ r = saved)
  /\ (PriceHistory.pk self = None ->
      objects' = objects ++ [saved]
      /\ forall r, In r objects -> PriceHistory.pk r <> PriceHistory.pk saved).
Proof.
  rewrite save_unfold. unfold PriceHistory.Model_save.
  set (self' := if PriceHistory.is_expired today self
                then PriceHistory.set_is_active false self else self).
  assert (Hf : PriceHistory.pk self' = PriceHistory.pk self
               /\ PriceHistory.part self' = PriceHistory.part self
               /\ PriceHistory.price self' = PriceHistory.price self
               /\ PriceHistory.start_date self' = PriceHistory.start_date self
               /\ PriceHistory.end_date self' = PriceHistory.end_date self
               /\ PriceHistory.is_active self'
                  = (if PriceHistory.is_expired today self then false
                     else PriceHistory.is_active self)).
  { unfold self'. destruct (PriceHistory.is_expired today self); repeat split. }
  destruct Hf as [Hpk [H1 [H2 [H3 [H4 H5]]]]].
  destruct (PriceHistory.pk self') as [k |] eqn:Hk.
  - destruct (existsb _ objects); intros H; injection H as <- <-;
      repeat split; try assumption; try congruence.
    + intros r Hr. apply in_map_iff in Hr. destruct Hr as [x [Hx Hin]].
      destruct (pk_eqb (PriceHistory.pk x) (Some k)); [right | left]; congruence.
    + intros r Hr. apply in_app_or in Hr. destruct Hr as [Hr | [<- | []]]; auto.
  - intros H. injection H as <- <-.
    repeat split; try assumption.
    + intros r Hr. apply in_app_or in Hr. destruct Hr as [Hr | [<- | []]]; auto.
    + intros r Hr Heq. simpl in Heq.
      assert (Hlt : next_pk (map PriceHistory.pk objects)
                    < next_pk (map PriceHistory.pk objects)); [| lia].
      apply next_pk_above. rewrite <- Heq. apply in_map, Hr.
Qed.

(** What passing the serializer's validation says about the request. *)
Lemma run_validation_spec (partial : bool)
      (data a : PriceHistoryCreateUpdateSerializer.attrs) :
  PriceHistoryCreateUpdateSerializer.run_validation partial data = ret a ->
  a = data
  /\ (partial = false ->
      PriceHistoryCreateUpdateSerializer.required data = ret tt)
  /\ (forall v, PriceHistoryCreateUpdateSerializer.price data = Some v -> 0 <= v)
  /\ (forall s e,
         PriceHistoryCreateUpdateSerializer.start_date data = Some s ->
         PriceHistoryCreateUpdateSerializer.end_date data = Some (Some e) ->
         s <= e).
Proof.
  unfold PriceHistoryCreateUpdateSerializer.run_validation,
    PriceHistoryCreateUpdateSerializer.is_valid,
    PriceHistoryCreateUpdateSerializer.validate,
    PriceHistoryCreateUpdateSerializer.validate_price,
    PriceHistoryCreateUpdateSerializer.get_end_date.
  intros H.
  assert (Hreq : partial = false ->
                 PriceHistoryCreateUpdateSerializer.required data = ret tt).
  { intros ->.
    destruct (PriceHistoryCreateUpdateSerializer.required data) as [e | []];
      [discriminate | reflexivity]. }
  assert (H' : bind (match PriceHistoryCreateUpdateSerializer.price data with
                     | Some v =>
                         bind (if v <? 0
                               then raise (ValidationError PriceBelowZero)
                               else ret v)
                              (fun _ => ret tt)
                     | None => ret tt
                     end)
                    (fun _ =>
                       match
                         match PriceHistoryCreateUpdateSerializer.end_date data with
                         | Some v => v
                         | None => None
                         end,
                         PriceHistoryCreateUpdateSerializer.start_date data
                       with
                       | Some e, Some s =>
                           if e <? s
                           then raise (ValidationError EndDateBeforeStart)
                           else ret data
                       | _, _ => ret data
                       end) = ret a).
  { destruct partial; [exact H |].
    destruct (PriceHistoryCreateUpdateSerializer.required data) as [e | []];
      [discriminate | exact H]. }
  clear H. split; [| split; [exact Hreq | split]].
  - destruct (PriceHistoryCreateUpdateSerializer.price data) as [v |];
      [destruct (v <? 0); [discriminate |] |]; simpl in H';
      destruct (PriceHistoryCreateUpdateSerializer.end_date data) as [[e |] |],
               (PriceHistoryCreateUpdateSerializer.start_date data) as [s |];
      try (destruct (e <? s); [discriminate |]);
      unfold ret in H'; congruence.
  - intros v Hv. rewrite Hv in H'.
    destruct (Z.ltb_spec v 0); [discriminate | lia].
  - intros s e Hs He. rewrite Hs, He in H'.
    destruct (PriceHistoryCreateUpdateSerializer.price data) as [v |];
      [destruct (v <? 0); [discriminate |] |]; simpl in H';
      destruct (Z.ltb_spec e s); try discriminate; lia.
Qed.

Lemma create_unfold (today : date) (now : Z) (file : option string)
      (data : PriceHistoryCreateUpdateSerializer.attrs)
      (objects : list PriceHistory.t) (saved : PriceHistory.t)
      (objects' : list PriceHistory.t) :
  PriceHistoryListCreateView.create today now file data objects
  = ret (saved, objects') ->
  exists p v s,
    PriceHistoryCreateUpdateSerializer.part data = Some p
    /\ PriceHistoryCreateUpdateSerializer.price data = Some v
    /\ PriceHistoryCreateUpdateSerializer.start_date data = Some s
    /\ 0 <= v
    /\ (forall e, PriceHistoryCreateUpdateSerializer.end_date data = Some (Some e) ->
                  s <= e)
    /\ PriceHistory.save today
         (PriceHistory.mk None p v (Some s)
            (PriceHistoryCreateUpdateSerializer.get_end_date data)
            (PriceHistoryCreateUpdateSerializer.get
               (PriceHistoryCreateUpdateSerializer.is_active data) true)
            file now)
         objects
       = (saved, objects').
Proof.
  unfold PriceHistoryListCreateView.create. intros H.
  destruct (PriceHistoryCreateUpdateSerializer.run_validation false data)
    as [err | a] eqn:Hv; [discriminate |].
  apply run_validation_spec in Hv. destruct Hv as [-> [_ [Hprice Hrange]]].
  simpl in H. unfold PriceHistoryCreateUpdateSerializer.create in H.
  destruct (PriceHistoryCreateUpdateSerializer.part data) as [p |]; [| discriminate].
  destruct (PriceHistoryCreateUpdateSerializer.price data) as [v |]; [| discriminate].
  destruct (PriceHistoryCreateUpdateSerializer.start_date data) as [s |];
    [| discriminate].
  exists p, v, s. repeat split; auto.
  unfold ret in H. congruence.
Qed.

(** (X11) A POST that succeeds appends one row under a key no stored row
    has. The row carries the part, price and dates of the request, so it
    has a start date, a price of at least 0 and an end date not before the
    start date; it is inactive when its end date is before [today], and
    otherwise has the flag of the request, active when the request has
    none. *)
Theorem create_price_history_row
        (today : date) (now : Z) (file : option string)
        (data : PriceHistoryCreateUpdateSerializer.attrs)
        (objects : list PriceHistory.t) (saved : PriceHistory.t)
        (objects' : list PriceHistory.t) :
  PriceHistoryListCreateView.create today now file data objects
  = ret (saved, objects') ->
  objects' = objects ++ [saved]
  /\ (forall r, In r objects -> PriceHistory.pk r <> PriceHistory.pk saved)
  /\ PriceHistoryCreateUpdateSerializer.part data = Some (PriceHistory.part saved)
  /\ PriceHistoryCreateUpdateSerializer.price data = Some (PriceHistory.price saved)
  /\ PriceHistory.start_date saved = PriceHistoryCreateUpdateSerializer.start_date data
  /\ PriceHistory.end_date saved = PriceHistoryCreateUpdateSerializer.get_end_date data
  /\ has_start_date saved
  /\ 0 <= PriceHistory.price saved
  /\ range_ordered saved
  /\ PriceHistory.is_active saved
     = (if PriceHistory.is_expired today saved then false
        else PriceHistoryCreateUpdateSerializer.get
               (PriceHistoryCreateUpdateSerializer.is_active data) true).
Proof.
  intros H. apply create_unfold in H.
  destruct H as [p [v [s [Hp [Hv [Hs [Hge [Hrange Hsave]]]]]]]].
  apply save_result in Hsave. simpl in Hsave.
  destruct Hsave as [H1 [H2 [H3 [H4 [H5 [_ Hnew]]]]]].
  destruct (Hnew eq_refl) as [Happ Hfresh].
  rewrite Hp, Hv, Hs.
  split; [exact Happ |]. split; [exact Hfresh |].
  split; [congruence |]. split; [congruence |].
  split; [exact H3 |]. split; [exact H4 |].
  split; [unfold has_start_date; congruence |].
  split; [lia |]. split.
  - intros s' e' Hs' He'. rewrite H3 in Hs'. injection Hs' as <-.
    rewrite H4 in He'. apply Hrange.
    unfold PriceHistoryCreateUpdateSerializer.get_end_date in He'.
    destruct (PriceHistoryCreateUpdateSerializer.end_date data) as [x |];
      congruence.
  - rewrite H5. unfold PriceHistory.is_expired. rewrite H4. reflexivity.
Qed.

Lemma create_price_history_row_witness :
  snd (PriceHistory.save 739007 candidate_2024_h2 [row_2024_h1])
  = [row_2024_h1] ++ [fst (PriceHistory.save 739007 candidate_2024_h2 [row_2024_h1])].
Proof.
  apply (proj1 (create_price_history_row
                  739007 1 None post_2024_h2 [row_2024_h1]
                  (fst (PriceHistory.save 739007 candidate_2024_h2 [row_2024_h1]))
                  (snd (PriceHistory.save 739007 candidate_2024_h2 [row_2024_h1]))
                  eq_refl)).
Defined.

(** (X12) The REST create does not run the overlap check of [clean]: when a
    POST has succeeded and the stored row overlaps a row of its comparison
    set, [clean] on the table as it was refuses that very row with the
    overlap error, and the row is in the table all the same. *)
Theorem create_skips_overlap_check
        (today : date) (now : Z) (file : option string)
        (data : PriceHistoryCreateUpdateSerializer.attrs)
        (objects : list PriceHistory.t) (saved : PriceHistory.t)
        (objects' : list PriceHistory.t) (h : PriceHistory.t) :
  PriceHistoryListCreateView.create today now file data objects
  = ret (saved, objects') ->
  Forall has_start_date objects ->
  comparison_set objects saved h ->
  overlaps saved h ->
  In saved objects' /\ In h objects'
  /\ exists s e,
      PriceHistory.clean objects saved
      = raise (ValidationError (PeriodOverlaps s e)).
Proof.
  intros Hc Hall Hcmp Hov. apply create_unfold in Hc.
  destruct Hc as [p [v [s [Hp [Hv [Hs [Hge [Hrange Hsave]]]]]]]].
  apply save_result in Hsave. simpl in Hsave.
  destruct Hsave as [_ [_ [H3 [H4 [_ [_ Hnew]]]]]].
  destruct (Hnew eq_refl) as [-> _].
  split; [apply in_or_app; right; left; reflexivity |].
  split; [apply in_or_app; left; apply Hcmp |].
  assert (Hstart : has_start_date saved) by (unfold has_start_date; congruence).
  assert (Hord : range_ordered saved).
  { intros s' e' Hs' He'. rewrite H3 in Hs'. injection Hs' as <-.
    rewrite H4 in He'. apply Hrange.
    unfold PriceHistoryCreateUpdateSerializer.get_end_date in He'.
    destruct (PriceHistoryCreateUpdateSerializer.end_date data) as [x |];
      congruence. }
  destruct (clean_overlap_spec objects saved Hstart Hord Hall)
    as [[h' [_ [_ Heq]]] | [Hnone _]].
  - eauto.
  - exfalso. exact (Hnone h Hcmp Hov).
Qed.

Lemma create_skips_overlap_check_witness :
  exists s e,
    PriceHistory.clean
      [row_2024_h1]
      (fst (PriceHistory.save 739007 candidate_2024_h2 [row_2024_h1]))
    = raise (ValidationError (PeriodOverlaps s e)).
Proof.
  apply (proj2 (proj2 (create_skips_overlap_check
                         739007 1 None post_2024_h2 [row_2024_h1]
                         (fst (PriceHistory.save 739007 candidate_2024_h2 [row_2024_h1]))
                         (snd (PriceHistory.save 739007 candidate_2024_h2 [row_2024_h1]))
                         row_2024_h1 eq_refl
                         ltac:(repeat constructor; unfold has_start_date; simpl;
                               discriminate)
                         ltac:(unfold comparison_set; simpl; repeat split;
                               try tauto; discriminate)
                         ltac:(exists 739052, 738886; simpl; repeat split; lia)))).
Defined.

Lemma update_unfold (partial : bool) (today : date) (pk : Z)
      (data : PriceHistoryCreateUpdateSerializer.attrs)
      (objects : list PriceHistory.t) (saved : PriceHistory.t)
      (objects' : list PriceHistory.t) :
  PriceHistoryDetailView.update partial today pk data objects
  = ret (saved, objects') ->
  exists instance,
    In instance objects
    /\ PriceHistory.pk instance = Some pk
    /\ PriceHistoryCreateUpdateSerializer.run_validation partial data = ret data
    /\ PriceHistory.save today
         (PriceHistoryCreateUpdateSerializer.setattrs instance data) objects
       = (saved, objects').
Proof.
  unfold PriceHistoryDetailView.update. intros H.
  destruct (PriceHistoryDetailView.get_object pk objects) as [err | instance] eqn:Hget;
    [discriminate |].
  apply (proj1 (get_object_price_history pk objects)) in Hget.
  simpl in H.
  destruct (PriceHistoryCreateUpdateSerializer.run_validation partial data)
    as [err | a] eqn:Hv; [discriminate |].
  pose proof (run_validation_spec _ _ _ Hv) as [-> _].
  simpl in H. unfold PriceHistoryCreateUpdateSerializer.update, ret in H.
  exists instance. repeat split; try tauto. congruence.
Qed.

(** (X13) Range order survives the writes that see both dates: on a table
    whose rows all have an ordered range, a POST that succeeds, and a PUT
    or PATCH that succeeds and whose body carries both the start date and
    the end date key (the end date may be null) or neither of them, leave
    a table whose rows all have an ordered range. *)
Theorem writes_keep_ranges_ordered :
  (forall today now file data objects saved objects',
      Forall range_ordered objects ->
      PriceHistoryListCreateView.create today now file data objects
      = ret (saved, objects') ->
      Forall range_ordered objects')
  /\ (forall partial today pk data objects saved objects',
         Forall range_ordered objects ->
         (PriceHistoryCreateUpdateSerializer.start_date data = None <->
          PriceHistoryCreateUpdateSerializer.end_date data = None) ->
         PriceHistoryDetailView.update partial today pk data objects
         = ret (saved, objects') ->
         Forall range_ordered objects').
Proof.
  split.
  - intros today now file data objects saved objects' Hall Hc.
    apply create_unfold in Hc.
    destruct Hc as [p [v [s [Hp [Hv [Hs [Hge [Hrange Hsave]]]]]]]].
    apply save_result in Hsave. simpl in Hsave.
    destruct Hsave as [_ [_ [H3 [H4 [_ [Hrows _]]]]]].
    rewrite Forall_forall in *. intros r Hr.
    destruct (Hrows r Hr) as [Hold | ->]; [apply Hall, Hold |].
    intros s' e' Hs' He'. rewrite H3 in Hs'. injection Hs' as <-.
    rewrite H4 in He'. apply Hrange.
    unfold PriceHistoryCreateUpdateSerializer.get_end_date in He'.
    destruct (PriceHistoryCreateUpdateSerializer.end_date data) as [x |];
      congruence.
  - intros partial today pk data objects saved objects' Hall Hkeys Hu.
    apply update_unfold in Hu.
    destruct Hu as [instance [Hin [Hpk [Hv Hsave]]]].
    apply run_validation_spec in Hv. destruct Hv as [_ [_ [_ Hrange]]].
    apply save_result in Hsave.
    destruct Hsave as [_ [_ [H3 [H4 [_ [Hrows _]]]]]].
    rewrite Forall_forall in *. intros r Hr.
    destruct (Hrows r Hr) as [Hold | ->]; [apply Hall, Hold |].
    intros s' e' Hs' He'. rewrite H3 in Hs'. rewrite H4 in He'.
    simpl in Hs', He'.
    destruct (PriceHistoryCreateUpdateSerializer.start_date data) as [s |] eqn:Es.
    + injection Hs' as <-.
      destruct (PriceHistoryCreateUpdateSerializer.end_date data) as [x |] eqn:Ee.
      * simpl in He'. subst x. apply Hrange; reflexivity.
      * exfalso. destruct Hkeys as [_ Hk]. specialize (Hk eq_refl). discriminate.
    + destruct (PriceHistoryCreateUpdateSerializer.end_date data) as [x |] eqn:Ee.
      * exfalso. destruct Hkeys as [Hk _]. specialize (Hk eq_refl). discriminate.
      * simpl in He'. exact (Hall instance Hin s' e' Hs' He').
Qed.

Lemma writes_keep_ranges_ordered_witness :
  Forall range_ordered
         (snd (PriceHistory.save 739007 candidate_2024_h2 [row_2024_h1])).
Proof.
  apply (proj1 writes_keep_ranges_ordered
               739007 1 None post_2024_h2 [row_2024_h1]
               (fst (PriceHistory.save 739007 candidate_2024_h2 [row_2024_h1]))
               (snd (PriceHistory.save 739007 candidate_2024_h2 [row_2024_h1]))).
  - repeat constructor. intros s e H1 H2. simpl in *.
    injection H1 as <-. injection H2 as <-. lia.
  - reflexivity.
Defined.

(** (X14) No write through the API stores a negative price: on a table whose
    prices are all at least 0, every POST, PUT or PATCH that succeeds
    leaves a table whose prices are all at least 0, and a request whose
    price is below 0 fails with the price error before anything is
    written. *)
Theorem writes_keep_prices_non_negative :
  (forall today now file data objects saved objects',
      Forall (fun r => 0 <= PriceHistory.price r) objects ->
      PriceHistoryListCreateView.create today now file data objects
      = ret (saved, objects') ->
      Forall (fun r => 0 <= PriceHistory.price r) objects')
  /\ (forall partial today pk data objects saved objects',
         Forall (fun r => 0 <= PriceHistory.price r) objects ->
         PriceHistoryDetailView.update partial today pk data objects
         = ret (saved, objects') ->
         Forall (fun r => 0 <= PriceHistory.price r) objects')
  /\ (forall today pk data objects instance v,
         PriceHistoryDetailView.get_object pk objects = ret instance ->
         PriceHistoryCreateUpdateSerializer.price data = Some v ->
         v < 0 ->
         PriceHistoryDetailView.update true today pk data objects
         = raise (ValidationError PriceBelowZero)).
Proof.
  split; [| split].
  - intros today now file data objects saved objects' Hall Hc.
    apply create_unfold in Hc.
    destruct Hc as [p [v [s [Hp [Hv [Hs [Hge [Hrange Hsave]]]]]]]].
    apply save_result in Hsave. simpl in Hsave.
    destruct Hsave as [_ [H2 [_ [_ [_ [Hrows _]]]]]].
    rewrite Forall_forall in *. intros r Hr.
    destruct (Hrows r Hr) as [Hold | ->]; [apply Hall, Hold | lia].
  - intros partial today pk data objects saved objects' Hall Hu.
    apply update_unfold in Hu.
    destruct Hu as [instance [Hin [Hpk [Hv Hsave]]]].
    apply run_validation_spec in Hv. destruct Hv as [_ [_ [Hprice _]]].
    apply save_result in Hsave.
    destruct Hsave as [_ [H2 [_ [_ [_ [Hrows _]]]]]].
    rewrite Forall_forall in *. intros r Hr.
    destruct (Hrows r Hr) as [Hold | ->]; [apply Hall, Hold |].
    rewrite H2. simpl.
    destruct (PriceHistoryCreateUpdateSerializer.price data) as [v |]; simpl.
    + apply Hprice. reflexivity.
    + apply Hall, Hin.
  - intros today pk data objects instance v Hget Hv Hlt.
    unfold PriceHistoryDetailView.update. rewrite Hget. simpl.
    unfold PriceHistoryCreateUpdateSerializer.run_validation,
      PriceHistoryCreateUpdateSerializer.is_valid,
      PriceHistoryCreateUpdateSerializer.validate_price.
    simpl. rewrite Hv. apply Z.ltb_lt in Hlt. rewrite Hlt. reflexivity.
Qed.

Lemma writes_keep_prices_non_negative_witness :
  Forall (fun r => 0 <= PriceHistory.price r)
         (snd (PriceHistory.save 739007 candidate_2024_h2 [row_2024_h1])).
Proof.
  apply (proj1 writes_keep_prices_non_negative
               739007 1 None post_2024_h2 [row_2024_h1]
               (fst (PriceHistory.save 739007 candidate_2024_h2 [row_2024_h1]))
               (snd (PriceHistory.save 739007 candidate_2024_h2 [row_2024_h1]))).
  - repeat constructor. simpl. lia.
  - reflexivity.
Defined.

(** ** Writing parts through the API *)

Lemma Part_Model_save_result (self : Part.t) (objects : list Part.t)
      (saved : Part.t) (objects' : list Part.t) :
  Part.Model_save self objects = ret (saved, objects') ->
  Part.set_pk None saved = Part.set_pk None self
  /\ (forall k, Part.pk self = Some k -> Part.pk saved = Some k)
  /\ (forall r, In r objects' -> In r objects \/ r = saved)
  /\ (Part.pk self = None ->
      objects' = objects ++ [saved]
      /\ forall r, In r objects -> Part.pk r <> Part.pk saved).
Proof.
  unfold Part.Model_save.
  destruct (Part.pk self) as [k |] eqn:Hpk.
  - destruct (existsb _ objects); [discriminate |].
    destruct (existsb _ objects); intros H; injection H as <- <-;
      repeat split; try congruence.
    + intros r Hr. apply in_map_iff in Hr. destruct Hr as [x [Hx Hin]].
      destruct (pk_eqb (Part.pk x) (Some k)); [right | left]; congruence.
    + intros r Hr. apply in_app_or in Hr. destruct Hr as [Hr | [<- | []]]; auto.
  - destruct (existsb _ objects); [discriminate |].
    intros H. injection H as <- <-. repeat split.
    + discriminate.
    + intros r Hr. apply in_app_or in Hr. destruct Hr as [Hr | [<- | []]]; auto.
    + intros r Hr Heq. simpl in Heq.
      assert (Hlt : next_pk (map Part.pk objects) < next_pk (map Part.pk objects));
        [| lia].
      apply next_pk_above. rewrite <- Heq. apply in_map, Hr.
Qed.

Lemma Part_is_valid_spec (partial : bool) (objects : list Part.t)
      (instance : option Part.t) (data a : PartCreateUpdateSerializer.attrs) :
  PartCreateUpdateSerializer.is_valid partial objects instance data = ret a ->
  a = data /\ fields_valid data.
Proof.
  unfold PartCreateUpdateSerializer.is_valid. intros H.
  destruct (if partial then ret tt else PartCreateUpdateSerializer.required data)
    as [e | []]; [discriminate |].
  simpl in H.
  assert (Hf : fields_valid data).
  { intros v Hv. rewrite Hv in H.
    unfold PartCreateUpdateSerializer.validate_minimum_order_quantity in H.
    destruct (Z.ltb_spec v 1); [discriminate | lia]. }
  split; [| exact Hf].
  destruct (match PartCreateUpdateSerializer.minimum_order_quantity data with
            | Some v =>
                PartCreateUpdateSerializer.validate_minimum_order_quantity v ;;; ret tt
            | None => ret tt
            end) as [e | []]; [discriminate |].
  simpl in H.
  destruct (validate_cases objects instance data) as [[Heq _] | [Heq _]];
    rewrite Heq in H; [discriminate |].
  unfold ret in H. congruence.
Qed.

(** (X15) The minimum order quantity stays at least 1: on a parts table
    where it is, every create or update that succeeds leaves one where it
    is. A created part is appended under a fresh key, with quantity 1 and
    the active flag set when the request names neither; an updated part
    keeps its key. *)
Theorem part_writes_keep_quantity :
  (forall data objects saved objects',
      Forall (fun r => 1 <= Part.minimum_order_quantity r) objects ->
      PartListCreateView.create data objects = ret (saved, objects') ->
      Forall (fun r => 1 <= Part.minimum_order_quantity r) objects'
      /\ objects' = objects ++ [saved]
      /\ (forall r, In r objects -> Part.pk r <> Part.pk saved)
      /\ (PartCreateUpdateSerializer.minimum_order_quantity data = None ->
          Part.minimum_order_quantity saved = 1)
      /\ (PartCreateUpdateSerializer.is_active data = None ->
          Part.is_active saved = true))
  /\ (forall partial pk data objects saved objects',
         Forall (fun r => 1 <= Part.minimum_order_quantity r) objects ->
         PartDetailView.update partial pk data objects = ret (saved, objects') ->
         Forall (fun r => 1 <= Part.minimum_order_quantity r) objects'
         /\ Part.pk saved = Some pk).
Proof.
  split.
  - intros data objects saved objects' Hall Hc.
    unfold PartListCreateView.create in Hc.
    destruct (PartCreateUpdateSerializer.is_valid false objects None data)
      as [e | a] eqn:Hv; [discriminate |].
    apply Part_is_valid_spec in Hv. destruct Hv as [-> Hf].
    simpl in Hc. unfold PartCreateUpdateSerializer.create in Hc.
    destruct (PartCreateUpdateSerializer.product data) as [p |]; [| discriminate].
    destruct (PartCreateUpdateSerializer.supplier_branch data) as [b |];
      [| discriminate].
    destruct (PartCreateUpdateSerializer.part_number data) as [n |]; [| discriminate].
    destruct (PartCreateUpdateSerializer.part_name data) as [m |]; [| discriminate].
    apply Part_Model_save_result in Hc.
    destruct Hc as [Hsame [_ [Hrows Hnew]]].
    destruct (Hnew eq_refl) as [Happ Hfresh].
    assert (Hq : Part.minimum_order_quantity saved
                 = PartCreateUpdateSerializer.get
                     (PartCreateUpdateSerializer.minimum_order_quantity data) 1
                 /\ Part.is_active saved
                    = PartCreateUpdateSerializer.get
                        (PartCreateUpdateSerializer.is_active data) true).
    { destruct saved. unfold Part.set_pk in Hsame. simpl in *.
      injection Hsame; intros; subst. auto. }
    destruct Hq as [Hq Ha].
    split; [| split; [exact Happ | split; [exact Hfresh | split]]].
    + rewrite Forall_forall in *. intros r Hr.
      destruct (Hrows r Hr) as [Hold | ->]; [apply Hall, Hold |].
      rewrite Hq.
      destruct (PartCreateUpdateSerializer.minimum_order_quantity data) as [v |] eqn:Ev;
        simpl; [apply Hf; exact Ev | lia].
    + intros Hn. rewrite Hq, Hn. reflexivity.
    + intros Hn. rewrite Ha, Hn. reflexivity.
  - intros partial pk data objects saved objects' Hall Hu.
    unfold PartDetailView.update in Hu.
    destruct (PartDetailView.get_object pk objects) as [e | instance] eqn:Hget;
      [discriminate |].
    apply get_object_pk in Hget. destruct Hget as [Hin Hpk].
    simpl in Hu.
    destruct (PartCreateUpdateSerializer.is_valid partial objects (Some instance) data)
      as [e | a] eqn:Hv; [discriminate |].
    apply Part_is_valid_spec in Hv. destruct Hv as [-> Hf].
    simpl in Hu. unfold PartCreateUpdateSerializer.update in Hu.
    apply Part_Model_save_result in Hu.
    destruct Hu as [Hsame [Hkey [Hrows _]]].
    split; [| apply Hkey; simpl; exact Hpk].
    assert (Hq : Part.minimum_order_quantity saved
                 = PartCreateUpdateSerializer.get
                     (PartCreateUpdateSerializer.minimum_order_quantity data)
                     (Part.minimum_order_quantity instance)).
    { destruct saved. unfold Part.set_pk, PartCreateUpdateSerializer.setattrs in Hsame.
      simpl in *. injection Hsame; intros; subst. auto. }
    rewrite Forall_forall in *. intros r Hr.
    destruct (Hrows r Hr) as [Hold | ->]; [apply Hall, Hold |].
    rewrite Hq.
    destruct (PartCreateUpdateSerializer.minimum_order_quantity data) as [v |] eqn:Ev;
      simpl; [apply Hf; exact Ev | apply Hall, Hin].
Qed.

Lemma part_writes_keep_quantity_witness :
  Forall (fun r => 1 <= Part.minimum_order_quantity r) [part_P; part_Q].
Proof.
  apply (proj1 (proj1 part_writes_keep_quantity
                      post_washer [part_P] part_Q [part_P; part_Q]
                      ltac:(repeat constructor; simpl; lia)
                      eq_refl)).
Defined.

(** (X16) The model and the serializer run the same duplicate check: for a
    part with a non-zero key, [Part.clean] answers as [validate] does on
    the part's own fields with the part as the instance under update, and
    for a part without a key as [validate] does for a create. *)
Theorem part_clean_agrees_with_validate (objects : list Part.t) (self : Part.t) :
  (truthy_pk (Part.pk self) = true ->
   Part.clean objects self
   = (PartCreateUpdateSerializer.validate objects (Some self) (attrs_of_part self)
      ;;; ret tt))
  /\ (Part.pk self = None ->
      Part.clean objects self
      = (PartCreateUpdateSerializer.validate objects None (attrs_of_part self)
         ;;; ret tt)).
Proof.
  unfold Part.clean, PartCreateUpdateSerializer.validate, attrs_of_part.
  split.
  - intros ->. simpl. destruct (exists_ _); reflexivity.
  - intros ->. simpl. destruct (exists_ _); reflexivity.
Qed.

Lemma part_clean_agrees_with_validate_witness :
  Part.clean [part_P; part_Q] part_P
  = (PartCreateUpdateSerializer.validate [part_P; part_Q] (Some part_P)
                                         (attrs_of_part part_P)
     ;;; ret tt).
Proof.
  apply (proj1 (part_clean_agrees_with_validate [part_P; part_Q] part_P)).
  reflexivity.
Defined.

(** ** Quote files *)

Lemma has_slash_app (p q : string) :
  has_slash (p ++ q) = has_slash p || has_slash q.
Proof.
  induction p as [| c p IH]; simpl; [reflexivity |].
  rewrite IH. apply orb_assoc.
Qed.

Lemma basename_app (p q : string) :
  has_slash q = true -> basename (p ++ q) = basename q.
Proof.
  intros Hq. induction p as [| c p IH]; simpl; [reflexivity |].
  rewrite has_slash_app, Hq, orb_true_r. exact IH.
Qed.

(** (X17) The file name survives the upload path: for a file name without
    a slash, [quote_file_name] of a row whose quote file is stored under
    the path [quote_file_upload_path] builds gives back the file name,
    whatever the part number, year and month. *)
Theorem quote_file_name_of_upload_path
        (self : PriceHistory.t) (part : Part.t) (year month : nat)
        (filename : string) :
  has_slash filename = false ->
  PriceHistory.quote_file self
  = Some (quote_file_upload_path part year month filename) ->
  PriceHistory.quote_file_name self = Some filename.
Proof.
  intros Hf Hq.
  unfold PriceHistory.quote_file_name, PriceHistory.quote_file_set.
  rewrite Hq. unfold quote_file_upload_path.
  change (("quotes/" ++ Part.part_number part ++ "/" ++ str year ++ "/"
           ++ format_02d month ++ "/" ++ filename)%string)
    with (String "q" ("uotes/" ++ Part.part_number part
                      ++ String "/" (str year
                      ++ String "/" (format_02d month
                      ++ String "/" filename))))%string.
  cbn [String.eqb Ascii.eqb Bool.eqb]. f_equal.
  assert (Hlast : basename (String "/" filename) = filename)
    by (simpl; rewrite Hf; reflexivity).
  assert (Hs : has_slash (String "/" filename) = true) by reflexivity.
  change (String "q" ("uotes/" ++ Part.part_number part
                      ++ String "/" (str year
                      ++ String "/" (format_02d month
                      ++ String "/" filename))))%string
    with ("quotes/" ++ (Part.part_number part
          ++ String "/" (str year
          ++ String "/" (format_02d month
          ++ String "/" filename))))%string.
  rewrite basename_app by (rewrite has_slash_app; simpl; apply orb_true_r).
  rewrite basename_app by reflexivity.
  change (basename (String "/" (str year ++ String "/" (format_02d month
                                ++ String "/" filename)))%string)
    with (basename ("/" ++ (str year ++ String "/" (format_02d month
                            ++ String "/" filename)))%string).
  rewrite basename_app by (rewrite has_slash_app; simpl; apply orb_true_r).
  rewrite basename_app by reflexivity.
  change (basename (String "/" (format_02d month ++ String "/" filename))%string)
    with (basename ("/" ++ (format_02d month ++ String "/" filename))%string).
  rewrite basename_app by (rewrite has_slash_app; simpl; apply orb_true_r).
  rewrite basename_app by reflexivity.
  exact Hlast.
Qed.

Lemma quote_file_name_of_upload_path_witness :
  PriceHistory.quote_file_name row_with_quote = Some "quote.pdf"%string.
Proof.
  apply (quote_file_name_of_upload_path row_with_quote part_P 2024 6 "quote.pdf");
    reflexivity.
Defined.

Example quote_file_upload_path_sample :
  quote_file_upload_path part_P 2024 6 "quote.pdf"
  = "quotes/P-001/2024/06/quote.pdf"%string.
Proof. reflexivity. Qed.
